(** * Caesar PDL initialization script: the status record and its JSON output

    A shallow embedding of [mcp_pdl_initialization.py]: the record built by
    [create_project_status], the call [json.dumps(status, indent=2)] and the
    [print] of the script's main block.  The two library calls the script
    relies on, [datetime.now().isoformat()] and [json.dumps], are modelled
    after CPython's pure-Python implementations ([datetime.py],
    [json/encoder.py]); [json.loads] ([json/decoder.py]) is modelled as well,
    to state what reading the output back gives. *)

From Stdlib Require Import List String Ascii ZArith NArith Bool Lia Arith.
Import ListNotations.

Local Open Scope Z_scope.

(** ** Text, exceptions and results *)

(** A chunk of output text: the characters of a Python [str], each one a code
    point below 256. *)
Definition text := list ascii.

Definition txt (s : string) : text := list_ascii_of_string s.

Definition dquote : ascii := "034"%char.
Definition backslash : ascii := "092"%char.
Definition newline : ascii := "010"%char.
Definition space : ascii := " "%char.

(** The exceptions the modelled calls can raise.  [OutsideModel] marks input
    of [json.loads] that the model does not cover (numbers, and escapes of
    code points above 255); [Exhausted] is the decoder running out of fuel. *)
Inductive exn : Type :=
| TypeError
| OSError
| JSONDecodeError
| OutsideModel
| Exhausted.

Inductive result (A : Type) : Type :=
| Ok (a : A)
| Err (e : exn).
Arguments Ok {A} a.
Arguments Err {A} e.

Definition rbind {A B} (r : result A) (k : A -> result B) : result B :=
  match r with
  | Ok a => k a
  | Err e => Err e
  end.

Declare Scope result_scope.
Delimit Scope result_scope with result.
Notation "x <- r ;; k" := (rbind r (fun x => k))
  (at level 61, r at next level, right associativity) : result_scope.
Notation "' pat <- r ;; k" := (rbind r (fun x => match x with pat => k end))
  (at level 61, pat pattern, r at next level, right associativity) : result_scope.

(** ** [datetime] *)

(** A naive [datetime] object, as [datetime.now()] returns it (no [tzinfo]). *)
Record datetime : Type := mkdatetime {
  year : Z;
  month : Z;
  day : Z;
  hour : Z;
  minute : Z;
  second : Z;
  microsecond : Z
}.

Definition is_leap (y : Z) : bool :=
  (y mod 4 =? 0) && ((negb (y mod 100 =? 0)) || (y mod 400 =? 0)).

Definition days_in_month (y m : Z) : Z :=
  if m =? 2 then (if is_leap y then 29 else 28)
  else if (m =? 4) || (m =? 6) || (m =? 9) || (m =? 11) then 30
  else 31.

(** The ranges the [datetime] constructor checks ([MINYEAR = 1],
    [MAXYEAR = 9999]). *)
Definition valid_datetime (d : datetime) : bool :=
  (1 <=? year d) && (year d <=? 9999) &&
  (1 <=? month d) && (month d <=? 12) &&
  (1 <=? day d) && (day d <=? days_in_month (year d) (month d)) &&
  (0 <=? hour d) && (hour d <=? 23) &&
  (0 <=? minute d) && (minute d <=? 59) &&
  (0 <=? second d) && (second d <=? 59) &&
  (0 <=? microsecond d) && (microsecond d <=? 999999).

Definition digit_char (d : Z) : ascii := ascii_of_N (Z.to_N (48 + d)).

(** The [w] low decimal digits of [n], most significant first. *)
Fixpoint fixed_digits (w : nat) (n : Z) : text :=
  match w with
  | O => []
  | S w' => fixed_digits w' (n / 10) ++ [digit_char (n mod 10)]
  end.

Fixpoint num_digits_aux (fuel : nat) (n : Z) : nat :=
  match fuel with
  | O => 1%nat
  | S fuel' => if n <? 10 then 1%nat else S (num_digits_aux fuel' (n / 10))
  end.

(** Number of decimal digits of [n >= 0]. *)
Definition num_digits (n : Z) : nat :=
  num_digits_aux (S (Z.to_nat (Z.log2 n))) n.

(** ["%0<width>d" % n]: zero padded to [width] characters, sign included,
    never truncated. *)
Definition format_d (width : nat) (n : Z) : text :=
  if n <? 0
  then "-"%char :: fixed_digits (Nat.max (width - 1) (num_digits (- n))) (- n)
  else fixed_digits (Nat.max width (num_digits n)) n.

(** [_format_time(hh, mm, ss, us, 'auto')]. *)
Definition format_time (hh mm ss us : Z) : text :=
  format_d 2 hh ++ txt ":" ++ format_d 2 mm ++ txt ":" ++ format_d 2 ss ++
  (if us =? 0 then [] else txt "." ++ format_d 6 us).

(** [datetime.isoformat()] with the default [sep='T'], [timespec='auto'];
    a naive datetime has no UTC offset to append. *)
Definition isoformat (d : datetime) : string :=
  string_of_list_ascii
    (format_d 4 (year d) ++ txt "-" ++ format_d 2 (month d) ++ txt "-" ++
     format_d 2 (day d) ++ txt "T" ++
     format_time (hour d) (minute d) (second d) (microsecond d)).

(** ** Python values *)

(** The values the script can hand to [json.dumps]: the JSON-serializable
    [None], [bool], [str], [list] and [dict] (with [str] keys, in insertion
    order), and the [datetime] object, which is not serializable. *)
Unset Elimination Schemes.
Inductive pyobj : Type :=
| PyNone
| PyBool (b : bool)
| PyStr (s : string)
| PyList (l : list pyobj)
| PyDict (items : list (string * pyobj))
| PyDatetime (d : datetime).
Set Elimination Schemes.

(** Induction over a value and everything nested in it. *)
Definition pyobj_ind (P : pyobj -> Prop)
    (HNone : P PyNone)
    (HBool : forall b, P (PyBool b))
    (HStr : forall s, P (PyStr s))
    (HList : forall l, Forall P l -> P (PyList l))
    (HDict : forall items, Forall (fun kv => P (snd kv)) items -> P (PyDict items))
    (HDatetime : forall d, P (PyDatetime d)) : forall o, P o :=
  fix F (o : pyobj) : P o :=
    match o with
    | PyNone => HNone
    | PyBool b => HBool b
    | PyStr s => HStr s
    | PyList l =>
        HList l ((fix G (l : list pyobj) : Forall P l :=
                    match l with
                    | [] => Forall_nil _
                    | x :: l' => Forall_cons x (F x) (G l')
                    end) l)
    | PyDict items =>
        HDict items ((fix G (l : list (string * pyobj)) : Forall (fun kv => P (snd kv)) l :=
                        match l with
                        | [] => Forall_nil _
                        | kv :: l' => Forall_cons kv (F (snd kv)) (G l')
                        end) items)
    | PyDatetime d => HDatetime d
    end.

Definition dict_keys (items : list (string * pyobj)) : list string :=
  map fst items.

Fixpoint dict_get (k : string) (items : list (string * pyobj)) : option pyobj :=
  match items with
  | [] => None
  | (k', v) :: items' => if String.eqb k k' then Some v else dict_get k items'
  end.

(** [o[k]] for a [dict] [o]. *)
Definition getitem (o : pyobj) (k : string) : option pyobj :=
  match o with
  | PyDict items => dict_get k items
  | _ => None
  end.

Definition keys (o : pyobj) : list string :=
  match o with
  | PyDict items => dict_keys items
  | _ => []
  end.

(** ** The process: clock, arguments, environment, standard output *)

Record world : Type := mkworld {
  clock : nat -> option datetime;  (* what the n-th clock read returns *)
  clock_reads : nat;               (* clock reads made so far *)
  argv : list string;
  environ : list (string * string);
  stdout : text                    (* the text printed so far *)
}.

(** A computation that may raise and that changes the world. *)
Definition M (A : Type) : Type := world -> result A * world.

Definition ret {A} (a : A) : M A := fun w => (Ok a, w).

Definition raise {A} (e : exn) : M A := fun w => (Err e, w).

Definition bind {A B} (m : M A) (k : A -> M B) : M B :=
  fun w =>
    match m w with
    | (Ok a, w') => k a w'
    | (Err e, w') => (Err e, w')
    end.

Definition lift {A} (r : result A) : M A := fun w => (r, w).

Declare Scope py_scope.
Delimit Scope py_scope with py.
Notation "x <- m ;; k" := (bind m (fun x => k))
  (at level 61, m at next level, right associativity) : py_scope.

(** The world after one more clock read. *)
Definition tick (w : world) : world :=
  mkworld (clock w) (S (clock_reads w)) (argv w) (environ w) (stdout w).

(** The world after [s] was written to standard output. *)
Definition write (s : text) (w : world) : world :=
  mkworld (clock w) (clock_reads w) (argv w) (environ w) (stdout w ++ s).

(** [datetime.now()]: one read of the system clock. *)
Definition datetime_now : M datetime :=
  fun w =>
    match clock w (clock_reads w) with
    | Some t => (Ok t, tick w)
    | None => (Err OSError, tick w)
    end.

(** [print(s)]: [s] and a newline are handed to [sys.stdout].  What the
    stream does with them (encoding, buffering, a write that fails) is the
    matter of [run] below. *)
Definition print (s : string) : M unit :=
  fun w => (Ok tt, write (list_ascii_of_string s ++ [newline]) w).

(** ** [create_project_status] *)

Local Open Scope string_scope.

(** The dict literal of [create_project_status], with the value of
    [datetime.now()] named [now]. *)
Definition status_literal (now : datetime) : pyobj :=
  PyDict [
    ("project_name", PyStr "Caesar Token DEX/Wallet/App Development");
    ("project_path", PyStr "/home/persist/repos/work/vazio/caesar");
    ("current_phase", PyStr "Assessment & Planning");
    ("phase_status", PyStr "INITIALIZING");
    ("last_updated", PyStr (isoformat now));

    ("completed_infrastructure", PyDict [
      ("phase_3_status", PyStr "COMPLETED");
      ("smart_contracts", PyDict [
        ("dex_factory", PyStr "0xAe0DfF19f44D3544139d900a3f9f6c03C6764538");
        ("caesar_token", PyStr "0x6299744254422aadb6a57183f47eaae1678cf86cc58a0c78dfc4fd2caa3ba2a4");
        ("network", PyStr "Sepolia Testnet")
      ]);
      ("frontend_applications", PyDict [
        ("dex_interface", PyStr "React/TypeScript - BUILT");
        ("cross_chain_bridge", PyStr "LayerZero V2 - BUILT");
        ("analytics_dashboard", PyStr "Real-time charts - BUILT");
        ("wallet_integration", PyStr "RainbowKit multi-chain - BUILT")
      ])
    ]);

    ("development_requirements", PyDict [
      ("agora_dex", PyDict [
        ("status", PyStr "PARTIALLY_IMPLEMENTED");
        ("location", PyStr "scrolls-app/agora-dex/");
        ("needs", PyList [
          PyStr "Enhanced trading features";
          PyStr "Advanced analytics";
          PyStr "DAO integration";
          PyStr "Mobile optimization";
          PyStr "Production deployment"
        ])
      ]);
      ("satchel_wallet", PyDict [
        ("status", PyStr "BASIC_IMPLEMENTATION");
        ("location", PyStr "scrolls-app/satchel-wallet/");
        ("needs", PyList [
          PyStr "Hardware wallet support";
          PyStr "Advanced Caesar optimizations";
          PyStr "DeFi protocol integrations";
          PyStr "Portfolio management";
          PyStr "Security enhancements"
        ])
      ]);
      ("tablets_ui", PyDict [
        ("status", PyStr "PARTIAL_ANALYTICS");
        ("location", PyStr "scrolls-app/tablets-ui/");
        ("needs", PyList [
          PyStr "Complete portfolio dashboard";
          PyStr "Advanced token analytics";
          PyStr "Mining interface";
          PyStr "Performance monitoring";
          PyStr "Cross-chain bridge UI enhancement"
        ])
      ])
    ]);

    ("next_actions", PyList [
      PyStr "Initialize PDL repository tracking";
      PyStr "Create comprehensive roadmap for ecosystem expansion";
      PyStr "Delegate to appropriate specialized agents";
      PyStr "Set up parallel development workflows";
      PyStr "Plan integration testing strategy"
    ])
  ].

Definition create_project_status : M pyobj :=
  (now <- datetime_now ;;
   let status := status_literal now in
   ret status)%py.

Local Close Scope string_scope.

Definition sample_time : datetime := mkdatetime 2026 11 4 9 5 7 123.

(** ** [json.dumps(obj, indent=n)] *)

Local Open Scope char_scope.

Definition hex_digit (n : N) : ascii :=
  if (n <? 10)%N then ascii_of_N (48 + n) else ascii_of_N (87 + n).

(** The replacement [py_encode_basestring_ascii] makes for one character:
    [ESCAPE_DCT] for the named escapes, the character itself in [' '..'~'],
    a [\u00xx] escape otherwise. *)
Definition escape_char (c : ascii) : text :=
  if Ascii.eqb c backslash then [backslash; backslash]
  else if Ascii.eqb c dquote then [backslash; dquote]
  else if Ascii.eqb c "008" then [backslash; "b"]
  else if Ascii.eqb c "012" then [backslash; "f"]
  else if Ascii.eqb c "010" then [backslash; "n"]
  else if Ascii.eqb c "013" then [backslash; "r"]
  else if Ascii.eqb c "009" then [backslash; "t"]
  else
    let n := N_of_ascii c in
    if ((32 <=? n) && (n <=? 126))%N then [c]
    else [backslash; "u"; "0"; "0"; hex_digit (n / 16); hex_digit (n mod 16)].

Definition escape (s : text) : text := flat_map escape_char s.

(** [encode_basestring_ascii(s)]: the escaped characters between quotes. *)
Definition encode_basestring_ascii (s : string) : text :=
  dquote :: escape (list_ascii_of_string s) ++ [dquote].

(** ['\n' + ' ' * (indent * level)]. *)
Definition newline_indent (indent level : nat) : text :=
  newline :: repeat space (indent * level).
Arguments newline_indent : simpl never.

Section EncodeItems.
Context {A : Type} (encode_item : A -> result text).
Variable nl : text.  (* newline_indent at the level of the items *)

(** The loop of [_iterencode_list] and [_iterencode_dict] over the items:
    [nl] before the first one, [',' + nl] before each later one. *)
Fixpoint encode_items (first : bool) (l : list A) : result text :=
  match l with
  | [] => Ok []
  | x :: l' =>
      (chunk <- encode_item x ;;
       more <- encode_items false l' ;;
       Ok ((if first then nl else "," :: nl) ++ chunk ++ more))%result
  end.
End EncodeItems.

(** [_iterencode(o, level)] of [_make_iterencode], its chunks joined.  With
    an indent the item separator is [','] and the key separator [': ']. *)
Fixpoint iterencode (indent level : nat) (o : pyobj) : result text :=
  match o with
  | PyNone => Ok (txt "null")
  | PyBool true => Ok (txt "true")
  | PyBool false => Ok (txt "false")
  | PyStr s => Ok (encode_basestring_ascii s)
  | PyList [] => Ok (txt "[]")
  | PyList l =>
      (body <- encode_items (iterencode indent (S level))
                 (newline_indent indent (S level)) true l ;;
       Ok ("[" :: body ++ newline_indent indent level ++ ["]"]))%result
  | PyDict [] => Ok (txt "{}")
  | PyDict items =>
      (body <- encode_items
                 (fun kv =>
                    chunk <- iterencode indent (S level) (snd kv) ;;
                    Ok (encode_basestring_ascii (fst kv) ++ txt ": " ++ chunk))
                 (newline_indent indent (S level)) true items ;;
       Ok ("{" :: body ++ newline_indent indent level ++ ["}"]))%result
  | PyDatetime _ => Err TypeError
  end.

(** [json.dumps(obj, indent=indent)].  The interpreter's recursion limit is
    not modelled: a value nested deeper than it allows, on which
    [json.dumps] raises [RecursionError], gets a text here. *)
Definition json_dumps (indent : nat) (o : pyobj) : result string :=
  (chunks <- iterencode indent 0 o ;; Ok (string_of_list_ascii chunks))%result.

(** ** The script's main block *)

Definition main : M unit :=
  (status <- create_project_status ;;
   out <- lift (json_dumps 2 status) ;;
   print out)%py.

(** Exit status that the result of the script calls for: 0, or 1 after an
    uncaught exception. *)
Definition exit_status {A} (r : result A) : Z :=
  match r with
  | Ok _ => 0%Z
  | Err _ => 1%Z
  end.

Definition sample_world : world :=
  mkworld (fun _ => Some sample_time) 0 [] [] [].

(** ** [json.loads] *)

(** [WHITESPACE_STR = ' \t\n\r']. *)
Definition is_ws (c : ascii) : bool :=
  Ascii.eqb c " " || Ascii.eqb c "009" || Ascii.eqb c "010" || Ascii.eqb c "013".

Fixpoint skip_ws (s : text) : text :=
  match s with
  | c :: s' => if is_ws c then skip_ws s' else s
  | [] => []
  end.

Fixpoint strip_prefix (p s : text) : option text :=
  match p, s with
  | [], _ => Some s
  | a :: p', b :: s' => if Ascii.eqb a b then strip_prefix p' s' else None
  | _ :: _, [] => None
  end.

Definition hex_value (c : ascii) : option N :=
  let n := N_of_ascii c in
  if ((48 <=? n) && (n <=? 57))%N then Some (n - 48)%N
  else if ((97 <=? n) && (n <=? 102))%N then Some (n - 87)%N
  else if ((65 <=? n) && (n <=? 70))%N then Some (n - 55)%N
  else None.

(** [_decode_uXXXX]: the code point four hexadecimal digits denote. *)
Definition decode_uXXXX (h1 h2 h3 h4 : ascii) : option N :=
  match hex_value h1, hex_value h2, hex_value h3, hex_value h4 with
  | Some a, Some b, Some c, Some d => Some (((a * 16 + b) * 16 + c) * 16 + d)%N
  | _, _, _, _ => None
  end.

(** The [BACKSLASH] table of the decoder. *)
Definition BACKSLASH (esc : ascii) : option ascii :=
  if Ascii.eqb esc dquote then Some dquote
  else if Ascii.eqb esc backslash then Some backslash
  else if Ascii.eqb esc "/" then Some "/"
  else if Ascii.eqb esc "b" then Some "008"
  else if Ascii.eqb esc "f" then Some "012"
  else if Ascii.eqb esc "n" then Some "010"
  else if Ascii.eqb esc "r" then Some "013"
  else if Ascii.eqb esc "t" then Some "009"
  else None.

(** [py_scanstring(s, end, strict=True)], from just after the opening quote:
    the decoded characters and the text after the closing quote. *)
Fixpoint scanstring (s : text) : result (text * text) :=
  match s with
  | [] => Err JSONDecodeError
  | c :: s1 =>
      if Ascii.eqb c dquote then Ok ([], s1)
      else if Ascii.eqb c backslash then
        match s1 with
        | [] => Err JSONDecodeError
        | esc :: s2 =>
            if Ascii.eqb esc "u" then
              match s2 with
              | h1 :: h2 :: h3 :: h4 :: s3 =>
                  match decode_uXXXX h1 h2 h3 h4 with
                  | Some uni =>
                      if (uni <? 256)%N then
                        (' (str, rest) <- scanstring s3 ;;
                         Ok (ascii_of_N uni :: str, rest))%result
                      else Err OutsideModel
                  | None => Err JSONDecodeError
                  end
              | _ => Err JSONDecodeError
              end
            else
              match BACKSLASH esc with
              | Some ch =>
                  (' (str, rest) <- scanstring s2 ;; Ok (ch :: str, rest))%result
              | None => Err JSONDecodeError
              end
        end
      else if (N_of_ascii c <? 32)%N then Err JSONDecodeError
      else (' (str, rest) <- scanstring s1 ;; Ok (c :: str, rest))%result
  end.

Fixpoint dict_set (k : string) (v : pyobj) (items : list (string * pyobj))
  : list (string * pyobj) :=
  match items with
  | [] => [(k, v)]
  | (k', v') :: items' =>
      if String.eqb k k' then (k', v) :: items'
      else (k', v') :: dict_set k v items'
  end.

(** [dict(pairs)]: a repeated key keeps its first position and takes the
    last value. *)
Definition dict_of_pairs (pairs : list (string * pyobj)) : list (string * pyobj) :=
  fold_left (fun d kv => dict_set (fst kv) (snd kv) d) pairs [].

Definition is_number_start (c : ascii) : bool :=
  Ascii.eqb c "-" || ((48 <=? N_of_ascii c) && (N_of_ascii c <=? 57))%N.

(** [scan_once], [JSONArray] and [JSONObject] of the decoder.  [fuel] bounds
    the number of values, elements and members read. *)
Fixpoint scan_once (fuel : nat) (s : text) : result (pyobj * text) :=
  match fuel with
  | O => Err Exhausted
  | S fuel' =>
      match s with
      | [] => Err JSONDecodeError
      | c :: s1 =>
          if Ascii.eqb c dquote then
            (' (str, rest) <- scanstring s1 ;;
             Ok (PyStr (string_of_list_ascii str), rest))%result
          else if Ascii.eqb c "{" then
            match skip_ws s1 with
            | c2 :: s2 =>
                if Ascii.eqb c2 "}" then Ok (PyDict [], s2)
                else if Ascii.eqb c2 dquote then
                  (' (pairs, rest) <- JSONObject_pairs fuel' s2 ;;
                   Ok (PyDict (dict_of_pairs pairs), rest))%result
                else Err JSONDecodeError
            | [] => Err JSONDecodeError
            end
          else if Ascii.eqb c "[" then
            match skip_ws s1 with
            | c2 :: s2 =>
                if Ascii.eqb c2 "]" then Ok (PyList [], s2)
                else
                  (' (values, rest) <- JSONArray_values fuel' (c2 :: s2) ;;
                   Ok (PyList values, rest))%result
            | [] => Err JSONDecodeError
            end
          else
            match strip_prefix (txt "null") s, strip_prefix (txt "true") s,
                  strip_prefix (txt "false") s with
            | Some rest, _, _ => Ok (PyNone, rest)
            | _, Some rest, _ => Ok (PyBool true, rest)
            | _, _, Some rest => Ok (PyBool false, rest)
            | None, None, None =>
                if is_number_start c then Err OutsideModel
                else
                  match strip_prefix (txt "NaN") s, strip_prefix (txt "Infinity") s with
                  | None, None => Err JSONDecodeError
                  | _, _ => Err OutsideModel
                  end
            end
      end
  end

(** The loop of [JSONArray], at the start of a value. *)
with JSONArray_values (fuel : nat) (s : text) : result (list pyobj * text) :=
  match fuel with
  | O => Err Exhausted
  | S fuel' =>
      (' (value, s1) <- scan_once fuel' s ;;
       match skip_ws s1 with
       | c :: s2 =>
           if Ascii.eqb c "]" then Ok ([value], s2)
           else if Ascii.eqb c "," then
             (' (values, rest) <- JSONArray_values fuel' (skip_ws s2) ;;
              Ok (value :: values, rest))
           else Err JSONDecodeError
       | [] => Err JSONDecodeError
       end)%result
  end

(** The loop of [JSONObject], just after the opening quote of a key. *)
with JSONObject_pairs (fuel : nat) (s : text) : result (list (string * pyobj) * text) :=
  match fuel with
  | O => Err Exhausted
  | S fuel' =>
      (' (key, s1) <- scanstring s ;;
       match skip_ws s1 with
       | c :: s2 =>
           if Ascii.eqb c ":" then
             (' (value, s3) <- scan_once fuel' (skip_ws s2) ;;
              match skip_ws s3 with
              | c3 :: s4 =>
                  if Ascii.eqb c3 "}" then Ok ([(string_of_list_ascii key, value)], s4)
                  else if Ascii.eqb c3 "," then
                    match skip_ws s4 with
                    | c5 :: s5 =>
                        if Ascii.eqb c5 dquote then
                          (' (pairs, rest) <- JSONObject_pairs fuel' s5 ;;
                           Ok ((string_of_list_ascii key, value) :: pairs, rest))
                        else Err JSONDecodeError
                    | [] => Err JSONDecodeError
                    end
                  else Err JSONDecodeError
              | [] => Err JSONDecodeError
              end)
           else Err JSONDecodeError
       | [] => Err JSONDecodeError
       end)%result
  end.

(** [json.loads(s)]: one value between optional whitespace, nothing after. *)
Definition json_loads (s : string) : result pyobj :=
  let body := skip_ws (list_ascii_of_string s) in
  (' (o, rest) <- scan_once (S (List.length body)) body ;;
   match skip_ws rest with
   | [] => Ok o
   | _ :: _ => Err JSONDecodeError
   end)%result.

(** Keys are unique in every dict of a Python value. *)
Fixpoint nodupb (l : list string) : bool :=
  match l with
  | [] => true
  | k :: l' => negb (existsb (String.eqb k) l') && nodupb l'
  end.

Fixpoint wf (o : pyobj) : bool :=
  match o with
  | PyList l => forallb wf l
  | PyDict items =>
      nodupb (map fst items) && forallb (fun kv => wf (snd kv)) items
  | _ => true
  end.

(** Number of values, elements and members of a value: the fuel that
    decoding it takes. *)
Fixpoint size (o : pyobj) : nat :=
  match o with
  | PyList l => S (list_sum (map (fun x => S (size x)) l))
  | PyDict items => S (list_sum (map (fun kv => S (size (snd kv))) items))
  | _ => 1%nat
  end.

(** The characters a JSON value can start with in the encoder's output. *)
Definition value_start (c : ascii) : bool :=
  Ascii.eqb c dquote || Ascii.eqb c "{" || Ascii.eqb c "[" ||
  Ascii.eqb c "n" || Ascii.eqb c "t" || Ascii.eqb c "f".

(** ** Reading a timestamp back *)

Definition digit_value (c : ascii) : option Z :=
  let n := Z.of_N (N_of_ascii c) in
  if ((48 <=? n) && (n <=? 57))%Z then Some (n - 48) else None.

(** Exactly [w] decimal digits, with their value added to [acc * 10^w]. *)
Fixpoint parse_digits (w : nat) (acc : Z) (s : text) : option (Z * text) :=
  match w with
  | O => Some (acc, s)
  | S w' =>
      match s with
      | c :: s' =>
          match digit_value c with
          | Some d => parse_digits w' (acc * 10 + d) s'
          | None => None
          end
      | [] => None
      end
  end.

Definition expect (c : ascii) (s : text) : option text :=
  match s with
  | c' :: s' => if Ascii.eqb c c' then Some s' else None
  | [] => None
  end.

Definition obind {A B} (o : option A) (k : A -> option B) : option B :=
  match o with
  | Some a => k a
  | None => None
  end.

Declare Scope option_scope.
Delimit Scope option_scope with option.
Notation "x <- o ;; k" := (obind o (fun x => k))
  (at level 61, o at next level, right associativity) : option_scope.
Notation "' pat <- o ;; k" := (obind o (fun x => match x with pat => k end))
  (at level 61, pat pattern, o at next level, right associativity) : option_scope.

(** The datetime an ISO 8601 text denotes, for the extended format of a
    local date and time, [YYYY-MM-DDThh:mm:ss] with an optional fraction
    [.ffffff] of a second; [None] when the text is not of that form or does
    not denote a date and time that exist.  ([datetime.fromisoformat] reads
    these texts the same way, and accepts other forms as well.) *)
Definition iso8601_datetime (s : string) : option datetime :=
  (' (y, s1) <- parse_digits 4 0 (list_ascii_of_string s) ;;
   s2 <- expect "-" s1 ;;
   ' (m, s3) <- parse_digits 2 0 s2 ;;
   s4 <- expect "-" s3 ;;
   ' (d, s5) <- parse_digits 2 0 s4 ;;
   s6 <- expect "T" s5 ;;
   ' (hh, s7) <- parse_digits 2 0 s6 ;;
   s8 <- expect ":" s7 ;;
   ' (mm, s9) <- parse_digits 2 0 s8 ;;
   s10 <- expect ":" s9 ;;
   ' (ss, s11) <- parse_digits 2 0 s10 ;;
   ' (us, s12) <- match s11 with
                  | [] => Some (0, [])
                  | _ :: _ => s' <- expect "." s11 ;; parse_digits 6 0 s'
                  end ;;
   match s12 with
   | [] =>
       let t := mkdatetime y m d hh mm ss us in
       if valid_datetime t then Some t else None
   | _ :: _ => None
   end)%option.

(** ** Lines of a text *)

(** The lines of a text, split at each newline. *)
Fixpoint lines (s : text) : list text :=
  match s with
  | [] => [[]]
  | c :: s' =>
      if Ascii.eqb c newline then [] :: lines s'
      else
        match lines s' with
        | l :: ls => (c :: l) :: ls
        | [] => [[c]]
        end
  end.

Definition not_newline (c : ascii) : bool := negb (Ascii.eqb c newline).

(** ** The layout of a pretty-printed document *)

Definition to_option {A} (r : result A) : option A :=
  match r with
  | Ok a => Some a
  | Err _ => None
  end.

(** Exactly [k] spaces. *)
Fixpoint expect_spaces (k : nat) (s : text) : option text :=
  match k with
  | O => Some s
  | S k' => (s' <- expect space s ;; expect_spaces k' s')%option
  end.

(** A line break and the indentation of [level], at [n] spaces a level. *)
Definition expect_break (n level : nat) (s : text) : option text :=
  (s' <- expect newline s ;; expect_spaces (n * level) s')%option.

(** The document a text lays out with [n] spaces a level, read from a value
    that stands at [level].  A string, [null], [true] and [false] stand as
    in JSON, and so do an empty list and an empty dict, written as the two
    brackets alone.  A list with items is an opening bracket at the end of
    its line, each item on a line of its own, indented one level more, with
    a comma after every item but the last, and the closing bracket on a line
    of its own at the indentation of the list.  A dict is laid out the same
    way, each entry being the key, a colon, one space and the value.  No
    other space and no other line break is allowed.  The result is the value
    and the text left after it, [None] when the text is not laid out this
    way. *)
Fixpoint layout_value (fuel n level : nat) (s : text) : option (pyobj * text) :=
  match fuel with
  | O => None
  | S fuel' =>
      match s with
      | [] => None
      | c :: s1 =>
          if Ascii.eqb c dquote then
            (' (str, rest) <- to_option (scanstring s1) ;;
             Some (PyStr (string_of_list_ascii str), rest))%option
          else if Ascii.eqb c "[" then
            match expect "]" s1 with
            | Some rest => Some (PyList [], rest)
            | None =>
                (s2 <- expect_break n (S level) s1 ;;
                 ' (values, rest) <- layout_items fuel' n level s2 ;;
                 Some (PyList values, rest))%option
            end
          else if Ascii.eqb c "{" then
            match expect "}" s1 with
            | Some rest => Some (PyDict [], rest)
            | None =>
                (s2 <- expect_break n (S level) s1 ;;
                 ' (pairs, rest) <- layout_pairs fuel' n level s2 ;;
                 Some (PyDict pairs, rest))%option
            end
          else
            match strip_prefix (txt "null") s, strip_prefix (txt "true") s,
                  strip_prefix (txt "false") s with
            | Some rest, _, _ => Some (PyNone, rest)
            | _, Some rest, _ => Some (PyBool true, rest)
            | _, _, Some rest => Some (PyBool false, rest)
            | None, None, None => None
            end
      end
  end

(** The items of a list that stands at [level], from the start of an item
    to the closing bracket. *)
with layout_items (fuel n level : nat) (s : text) : option (list pyobj * text) :=
  match fuel with
  | O => None
  | S fuel' =>
      (' (value, s1) <- layout_value fuel' n (S level) s ;;
       match expect "," s1 with
       | Some s2 =>
           s3 <- expect_break n (S level) s2 ;;
           ' (values, rest) <- layout_items fuel' n level s3 ;;
           Some (value :: values, rest)
       | None =>
           s2 <- expect_break n level s1 ;;
           rest <- expect "]" s2 ;;
           Some ([value], rest)
       end)%option
  end

(** The entries of a dict that stands at [level], from the start of a key
    to the closing bracket. *)
with layout_pairs (fuel n level : nat) (s : text)
  : option (list (string * pyobj) * text) :=
  match fuel with
  | O => None
  | S fuel' =>
      (s0 <- expect dquote s ;;
       ' (key, s1) <- to_option (scanstring s0) ;;
       s2 <- expect ":" s1 ;;
       s3 <- expect " " s2 ;;
       ' (value, s4) <- layout_value fuel' n (S level) s3 ;;
       match expect "," s4 with
       | Some s5 =>
           s6 <- expect_break n (S level) s5 ;;
           ' (pairs, rest) <- layout_pairs fuel' n level s6 ;;
           Some ((string_of_list_ascii key, value) :: pairs, rest)
       | None =>
           s5 <- expect_break n level s4 ;;
           rest <- expect "}" s5 ;;
           Some ([(string_of_list_ascii key, value)], rest)
       end)%option
  end.

(** The document a whole text lays out with [n] spaces a level. *)
Definition layout (n : nat) (s : string) : option pyobj :=
  let body := list_ascii_of_string s in
  match layout_value (S (List.length body)) n 0 body with
  | Some (o, []) => Some o
  | _ => None
  end.

(** A text is pretty-printed with [n]-space indentation when it lays out a
    document that way. *)
Definition pretty_printed (n : nat) (s : string) : bool :=
  match layout n s with
  | Some _ => true
  | None => false
  end.

(** ** Shapes of values *)

Definition is_str (o : pyobj) : bool :=
  match o with
  | PyStr _ => true
  | _ => false
  end.

Definition is_str_list (o : pyobj) : bool :=
  match o with
  | PyList l => forallb is_str l
  | _ => false
  end.

Definition is_dict (o : pyobj) : bool :=
  match o with
  | PyDict _ => true
  | _ => false
  end.

(** No value that [json.dumps] rejects is nested in [o]. *)
Fixpoint serializable (o : pyobj) : bool :=
  match o with
  | PyList l => forallb serializable l
  | PyDict items => forallb (fun kv => serializable (snd kv)) items
  | PyDatetime _ => false
  | _ => true
  end.

(** Every value nested inside [o], at any depth. *)
Fixpoint nested (o : pyobj) : list pyobj :=
  match o with
  | PyList l => flat_map (fun x => x :: nested x) l
  | PyDict items => flat_map (fun kv => snd kv :: nested (snd kv)) items
  | _ => []
  end.

(** ** The output around the timestamp *)

Definition sample_chunks : text :=
  match iterencode 2 0 (status_literal sample_time) with
  | Ok chunks => chunks
  | Err _ => []
  end.

(** The lines [json.dumps] writes above the [last_updated] line. *)
Definition text_above : text := Eval vm_compute in firstn 199 sample_chunks.

(** The start of the [last_updated] line: indentation, key and [': ']. *)
Definition last_updated_key : text :=
  Eval vm_compute in firstn 18 (skipn 200 sample_chunks).

(** The lines [json.dumps] writes below the [last_updated] line. *)
Definition text_below : text :=
  Eval vm_compute in
    skipn (220 + List.length (encode_basestring_ascii (isoformat sample_time)))
          sample_chunks.

(** The text before the value of [last_updated], and the text after it. *)
Definition output_before : text := text_above ++ newline :: last_updated_key.
Definition output_after : text := "," :: newline :: text_below.

(** The text of the record built at clock reading [t]. *)
Definition status_text (t : datetime) : string :=
  string_of_list_ascii
    (output_before ++ encode_basestring_ascii (isoformat t) ++ output_after).

Definition later_time : datetime := mkdatetime 2026 11 4 9 5 8 0.

Definition later_world : world :=
  mkworld (fun _ => Some later_time) 3 ["script.py"%string] [] [].

(** A run with arguments, an environment, earlier output and a clock that
    has been read before, whose next clock read returns [sample_time]. *)
Definition noisy_world : world :=
  mkworld (fun n => if (n =? 2)%nat then Some sample_time else Some later_time)
          2 ["script.py"; "--verbose"]%string [("HOME", "/root")]%string
          (txt "earlier output").

Definition top_level_keys : list string :=
  ["project_name"; "project_path"; "current_phase"; "phase_status";
   "last_updated"; "completed_infrastructure"; "development_requirements";
   "next_actions"]%string.

(** [o] reads back: whatever follows its encoding, the decoder returns [o]
    and stops right after it. *)
Definition reads_back (o : pyobj) : Prop :=
  forall indent level chunk,
    iterencode indent level o = Ok chunk ->
    forall fuel rest,
      (size o <= fuel)%nat ->
      scan_once fuel (chunk ++ rest) = Ok (o, rest).

Definition items_fuel (l : list pyobj) : nat :=
  list_sum (map (fun x => S (size x)) l).

Definition pairs_fuel (items : list (string * pyobj)) : nat :=
  list_sum (map (fun kv => S (size (snd kv))) items).

(** A value with nested containers, empty ones, and a string that needs
    escapes. *)
Definition sample_value : pyobj :=
  PyList [PyDict [("a"%string, PyStr (String "233" (String "010" "x")));
                  ("b"%string, PyList []); ("c"%string, PyDict [])];
          PyNone; PyBool true; PyBool false].

(** The first comparison that is not [Eq] decides. *)
Definition lex (c1 c2 : comparison) : comparison :=
  match c1 with
  | Eq => c2
  | _ => c1
  end.

(** The order of naive [datetime] objects: their fields compared in turn,
    from the year down to the microsecond. *)
Definition datetime_compare (a b : datetime) : comparison :=
  lex (year a ?= year b)%Z
  (lex (month a ?= month b)%Z
  (lex (day a ?= day b)%Z
  (lex (hour a ?= hour b)%Z
  (lex (minute a ?= minute b)%Z
  (lex (second a ?= second b)%Z
       (microsecond a ?= microsecond b)%Z))))).

(** The order of Python [str] values, on texts: code point by code point,
    a proper prefix first. *)
Fixpoint compare_text (a b : text) : comparison :=
  match a, b with
  | [], [] => Eq
  | [], _ :: _ => Lt
  | _ :: _, [] => Gt
  | x :: a', y :: b' => lex (Ascii.compare x y) (compare_text a' b')
  end.

(** The layout of [o]'s text is [o]: whatever follows the text that
    [json.dumps] writes for [o] at [level], reading the layout returns [o]
    and stops right after it. *)
Definition lays_out (o : pyobj) : Prop :=
  forall n level chunk,
    iterencode n level o = Ok chunk ->
    forall fuel rest,
      (size o <= fuel)%nat ->
      layout_value fuel n level (chunk ++ rest) = Some (o, rest).

(** A run whose clock cannot be read. *)
Definition broken_world : world :=
  mkworld (fun _ => None) 0 ["script.py"]%string [] (txt "earlier output").

(** The characters [json.dumps] may write with [ensure_ascii] left at its
    default: the newline of the indentation and the printable ASCII range
    [' '..'~']. *)
Definition ascii_safe (c : ascii) : bool :=
  Ascii.eqb c newline || ((32 <=? N_of_ascii c) && (N_of_ascii c <=? 126))%N.

(** ** The process: what becomes of the printed text *)

(** Bytes, each held as an [ascii]. *)
Definition bytes := list ascii.

(** The encodings of standard output that the model knows.  [UTF16] is the
    text as [sys.stdout] writes it under that name on a little-endian host:
    two bytes a character, the low byte first, no byte order mark. *)
Inductive codec : Type := UTF8 | ASCII | Latin1 | UTF16.

Definition codec_of_name (name : string) : option codec :=
  if (String.eqb name "utf-8" || String.eqb name "utf8")%bool then Some UTF8
  else if String.eqb name "ascii" then Some ASCII
  else if String.eqb name "latin-1" then Some Latin1
  else if String.eqb name "utf-16" then Some UTF16
  else None.

(** The bytes of one character, [None] when the codec cannot encode it
    (the stream's error handler is [strict]). *)
Definition encode_char (c : codec) (ch : ascii) : option bytes :=
  let n := N_of_ascii ch in
  match c with
  | UTF8 =>
      Some (if (n <? 128)%N then [ch]
            else [ascii_of_N (192 + n / 64); ascii_of_N (128 + n mod 64)])
  | ASCII => if (n <? 128)%N then Some [ch] else None
  | Latin1 => Some [ch]
  | UTF16 => Some [ch; zero]
  end.

Fixpoint encode (c : codec) (s : text) : option bytes :=
  match s with
  | [] => Some []
  | ch :: s' =>
      (b <- encode_char c ch ;; bs <- encode c s' ;; Some (b ++ bs))%option
  end.

Fixpoint getenv (name : string) (env : list (string * string)) : option string :=
  match env with
  | [] => None
  | (k, v) :: env' => if String.eqb name k then Some v else getenv name env'
  end.

(** What file descriptor 1 is when the interpreter starts: closed (then
    [sys.stdout] is [None] and [print] writes nothing), a file or pipe that
    accepts what is written, or one on which every write fails, as
    [/dev/full] does. *)
Inductive device : Type := Closed | Accepting | Full.

(** What the host gives the process besides arguments, environment and
    clock: the device behind standard output, the encoding of the locale,
    and the size of the buffer of [sys.stdout] ([io.DEFAULT_BUFFER_SIZE]). *)
Record host : Type := mkhost {
  stdout_device : device;
  locale_codec : codec;
  buffer_size : Z
}.

(** The encoding of [sys.stdout]: the one [PYTHONIOENCODING] names when it
    is set and not empty, the locale's otherwise; [None] for a name the
    model does not know. *)
Definition stdout_codec (h : host) (env : list (string * string)) : option codec :=
  match getenv "PYTHONIOENCODING" env with
  | None | Some EmptyString => Some (locale_codec h)
  | Some name => codec_of_name name
  end.

(** [PYTHONUNBUFFERED] set and not empty: [sys.stdout] hands every write
    to the device at once. *)
Definition unbuffered (env : list (string * string)) : bool :=
  match getenv "PYTHONUNBUFFERED" env with
  | None | Some EmptyString => false
  | Some _ => true
  end.

(** How a process ends: its exit status and the bytes that reached
    standard output. *)
Record outcome : Type := mkoutcome {
  exit_code : Z;
  written : bytes
}.

(** The world of a process that starts: nothing printed yet. *)
Definition launch (w : world) : world :=
  mkworld (clock w) (clock_reads w) (argv w) (environ w) [].

(** The script run as a process by an interpreter that starts and loads
    the standard library.  An exception that reaches the top ends the
    process with status 1.  The printed text is encoded into the buffer of
    [sys.stdout], which is written out when the buffer is full, at once when
    the stream is unbuffered, and when the interpreter exits; [print] is the
    last statement of the script, so a failing write ends the process either
    way: with status 1 when it happens in [print], with status 120 when it
    happens at exit.  [None] when the encoding of standard output is outside
    the model. *)
Definition run (h : host) (w : world) : option outcome :=
  match stdout_codec h (environ w) with
  | None => None
  | Some c =>
      match main (launch w) with
      | (Err _, _) => Some (mkoutcome 1 [])
      | (Ok _, w') =>
          match stdout_device h with
          | Closed => Some (mkoutcome 0 [])
          | Accepting =>
              match encode c (stdout w') with
              | Some bs => Some (mkoutcome 0 bs)
              | None => Some (mkoutcome 1 [])
              end
          | Full =>
              match encode c (stdout w') with
              | Some bs =>
                  Some (mkoutcome
                          (if unbuffered (environ w) then 1
                           else if (Z.of_nat (List.length bs) <? buffer_size h)%Z
                                then 120 else 1)
                          [])
              | None => Some (mkoutcome 1 [])
              end
          end
      end
  end.

(** A host whose standard output accepts everything, and one whose
    standard output is full. *)
Definition plain_host : host := mkhost Accepting UTF8 8192.
Definition full_host : host := mkhost Full UTF8 8192.

(** A run in the environment of [noisy_world], with other arguments, no
    earlier output and another history of the clock, whose next clock read
    returns [sample_time] too. *)
Definition quiet_world : world :=
  mkworld (fun n => if (n =? 5)%nat then Some sample_time else None)
          5 ["script.py"]%string (environ noisy_world) [].

(** [sample_world] with [PYTHONIOENCODING=utf-16] in the environment. *)
Definition utf16_world : world :=
  mkworld (clock sample_world) (clock_reads sample_world) (argv sample_world)
          [("PYTHONIOENCODING", "utf-16")]%string (stdout sample_world).

(** * Properties of the library models *)

Ltac norm_text :=
  repeat (rewrite <- app_assoc || rewrite <- app_comm_cons || rewrite app_nil_l).

Ltac inv_rbind H :=
  match type of H with
  | rbind ?r _ = Ok _ =>
      let E := fresh "E" in
      destruct r eqn:E; cbn [rbind] in H; [|discriminate H]
  end.

(** ** The formats on sample values *)

Example isoformat_sample :
  isoformat sample_time = "2026-11-04T09:05:07.000123"%string.
Proof. reflexivity. Qed.

Example isoformat_whole_second :
  isoformat (mkdatetime 2024 2 29 23 59 0 0) = "2024-02-29T23:59:00"%string.
Proof. reflexivity. Qed.

Example format_d_wide : format_d 2 123 = txt "123".
Proof. reflexivity. Qed.

Example format_d_negative : format_d 4 (-5) = txt "-005".
Proof. reflexivity. Qed.


Example last_updated_key_text :
  last_updated_key = txt "  " ++ dquote :: txt "last_updated" ++ dquote :: txt ": ".
Proof. reflexivity. Qed.

Example output_starts :
  firstn 19 text_above = "{" :: newline :: txt "  " ++ dquote :: txt "project_name" ++ [dquote; ":"].
Proof. reflexivity. Qed.

(** ** What the layout accepts and what it rejects *)

Example layout_two_items :
  layout 2 (string_of_list_ascii
              ("[" :: newline :: txt "  null," ++ newline :: txt "  true" ++
               [newline; "]"]))
  = Some (PyList [PyNone; PyBool true]).
Proof. reflexivity. Qed.

Example layout_rejects_one_line :
  layout 2 (string_of_list_ascii (txt "[null, true]")) = None /\
  layout 0 (string_of_list_ascii (txt "[null,true]")) = None /\
  layout 2 (string_of_list_ascii
              ("{" :: dquote :: "a" :: dquote :: txt ": null}")) = None.
Proof. repeat split. Qed.

Example layout_rejects_two_items_on_a_line :
  layout 2 (string_of_list_ascii
              ("[" :: newline :: txt "  null, true" ++ [newline; "]"])) = None.
Proof. reflexivity. Qed.

Example layout_rejects_other_indentation :
  layout 2 (string_of_list_ascii
              ("[" :: newline :: txt "    null" ++ [newline; "]"])) = None /\
  layout 4 (string_of_list_ascii
              ("[" :: newline :: txt "  null" ++ [newline; "]"])) = None /\
  layout 2 (string_of_list_ascii
              ("[" :: newline :: txt "  null" ++ newline :: txt "  ]")) = None.
Proof. repeat split. Qed.

Example layout_rejects_other_text :
  layout 2 (string_of_list_ascii (txt "hello")) = None.
Proof. reflexivity. Qed.

Example four_space_rejected :
  pretty_printed 4 (status_text sample_time) = false /\
  pretty_printed 0 (status_text sample_time) = false.
Proof. split; vm_compute; reflexivity. Qed.

(** ** Strings: the decoder undoes the encoder's escapes *)

Lemma scanstring_escape_char (c : ascii) (tail : text) :
  scanstring (escape_char c ++ tail) =
  (' (str, rest) <- scanstring tail ;; Ok (c :: str, rest))%result.
Proof.
  destruct c as [[] [] [] [] [] [] [] []]; reflexivity.
Qed.

Lemma scanstring_escape (s rest : text) :
  scanstring (escape s ++ dquote :: rest) = Ok (s, rest).
Proof.
  induction s as [|c s IH]; [reflexivity|].
  unfold escape in *. cbn [flat_map]. rewrite <- app_assoc.
  rewrite scanstring_escape_char, IH. reflexivity.
Qed.

Lemma scanstring_encoded (s : string) (rest : text) :
  exists body,
    encode_basestring_ascii s ++ rest = dquote :: body /\
    scanstring body = Ok (list_ascii_of_string s, rest).
Proof.
  exists (escape (list_ascii_of_string s) ++ dquote :: rest). split.
  - unfold encode_basestring_ascii. cbn [app]. now rewrite <- app_assoc.
  - apply scanstring_escape.
Qed.

(** ** Whitespace and the first character of a value *)

Lemma skip_ws_repeat_space (n : nat) (s : text) :
  skip_ws (repeat space n ++ s) = skip_ws s.
Proof. induction n as [|n IH]; [reflexivity|exact IH]. Qed.

Lemma skip_ws_newline_indent (indent level : nat) (s : text) :
  skip_ws (newline_indent indent level ++ s) = skip_ws s.
Proof. unfold newline_indent. cbn. apply skip_ws_repeat_space. Qed.

Lemma skip_ws_nonws (c : ascii) (s : text) :
  is_ws c = false -> skip_ws (c :: s) = c :: s.
Proof. intros H. cbn. now rewrite H. Qed.

Lemma skip_ws_nonws_app (s rest : text) :
  match s with c :: _ => is_ws c = false | [] => False end ->
  skip_ws (s ++ rest) = s ++ rest.
Proof.
  destruct s as [|c s]; [intros []|]. intros H. now apply skip_ws_nonws.
Qed.

Lemma value_start_cases (c : ascii) :
  value_start c = true ->
  c = dquote \/ c = "{" \/ c = "[" \/ c = "n" \/ c = "t" \/ c = "f".
Proof.
  unfold value_start. rewrite !orb_true_iff, !Ascii.eqb_eq. tauto.
Qed.

Lemma value_start_not_ws (c : ascii) : value_start c = true -> is_ws c = false.
Proof.
  intros H. apply value_start_cases in H.
  repeat (destruct H as [H|H]; [subst c; reflexivity|]). subst c; reflexivity.
Qed.

Lemma value_start_not_close (c : ascii) :
  value_start c = true -> Ascii.eqb c "]" = false.
Proof.
  intros H. apply value_start_cases in H.
  repeat (destruct H as [H|H]; [subst c; reflexivity|]). subst c; reflexivity.
Qed.

Lemma iterencode_start (indent level : nat) (o : pyobj) (chunk : text) :
  iterencode indent level o = Ok chunk ->
  exists c tl, chunk = c :: tl /\ value_start c = true.
Proof.
  destruct o as [|[]|s|l|items|d]; cbn [iterencode]; intros H.
  - injection H as <-. now eexists _, _.
  - injection H as <-. now eexists _, _.
  - injection H as <-. now eexists _, _.
  - injection H as <-. now eexists _, _.
  - destruct l.
    + injection H as <-. now eexists _, _.
    + inv_rbind H. injection H as <-. now eexists _, _.
  - destruct items.
    + injection H as <-. now eexists _, _.
    + inv_rbind H. injection H as <-. now eexists _, _.
  - discriminate.
Qed.

Lemma skip_ws_indent_value (indent level level' : nat) (o : pyobj) (chunk rest : text) :
  iterencode indent level' o = Ok chunk ->
  skip_ws (newline_indent indent level ++ chunk ++ rest) = chunk ++ rest.
Proof.
  intros H. rewrite skip_ws_newline_indent.
  destruct (iterencode_start _ _ _ _ H) as (c & tl & -> & Hc).
  cbn [app]. apply skip_ws_nonws, value_start_not_ws, Hc.
Qed.

(** ** Unfolding the decoder by one step *)

Lemma JSONArray_values_S (fuel : nat) (s : text) :
  JSONArray_values (S fuel) s =
  (' (value, s1) <- scan_once fuel s ;;
   match skip_ws s1 with
   | c :: s2 =>
       if Ascii.eqb c "]" then Ok ([value], s2)
       else if Ascii.eqb c "," then
         (' (values, rest) <- JSONArray_values fuel (skip_ws s2) ;;
          Ok (value :: values, rest))
       else Err JSONDecodeError
   | [] => Err JSONDecodeError
   end)%result.
Proof. reflexivity. Qed.

Lemma JSONObject_pairs_S (fuel : nat) (s : text) :
  JSONObject_pairs (S fuel) s =
  (' (key, s1) <- scanstring s ;;
   match skip_ws s1 with
   | c :: s2 =>
       if Ascii.eqb c ":" then
         (' (value, s3) <- scan_once fuel (skip_ws s2) ;;
          match skip_ws s3 with
          | c3 :: s4 =>
              if Ascii.eqb c3 "}" then Ok ([(string_of_list_ascii key, value)], s4)
              else if Ascii.eqb c3 "," then
                match skip_ws s4 with
                | c5 :: s5 =>
                    if Ascii.eqb c5 dquote then
                      (' (pairs, rest) <- JSONObject_pairs fuel s5 ;;
                       Ok ((string_of_list_ascii key, value) :: pairs, rest))
                    else Err JSONDecodeError
                | [] => Err JSONDecodeError
                end
              else Err JSONDecodeError
          | [] => Err JSONDecodeError
          end)
       else Err JSONDecodeError
   | [] => Err JSONDecodeError
   end)%result.
Proof. reflexivity. Qed.

(** ** Decoding what the encoder wrote *)

Lemma items_fuel_cons (x : pyobj) (l : list pyobj) :
  items_fuel (x :: l) = (S (size x) + items_fuel l)%nat.
Proof. reflexivity. Qed.

Lemma pairs_fuel_cons (kv : string * pyobj) (items : list (string * pyobj)) :
  pairs_fuel (kv :: items) = (S (size (snd kv)) + pairs_fuel items)%nat.
Proof. reflexivity. Qed.

Lemma rbind_Ok {A B} (r : result A) (k : A -> result B) (b : B) :
  rbind r k = Ok b -> exists a, r = Ok a /\ k a = Ok b.
Proof. destruct r as [a|e]; [now exists a | discriminate]. Qed.

Lemma encode_items_cons_Ok {A} (enc : A -> result text) (nl : text)
    (first : bool) (x : A) (l : list A) (body : text) :
  encode_items enc nl first (x :: l) = Ok body ->
  exists chunk more,
    enc x = Ok chunk /\
    encode_items enc nl false l = Ok more /\
    body = (if first then nl else "," :: nl) ++ chunk ++ more.
Proof.
  cbn [encode_items]. intros H.
  apply rbind_Ok in H as (chunk & Hc & H).
  apply rbind_Ok in H as (more & Hm & H).
  exists chunk, more. repeat split; try assumption. now injection H as <-.
Qed.

Lemma JSONArray_values_encoded (indent level : nat) (l : list pyobj) :
  Forall reads_back l ->
  forall x chunk more rest fuel,
    reads_back x ->
    iterencode indent (S level) x = Ok chunk ->
    encode_items (iterencode indent (S level))
      (newline_indent indent (S level)) false l = Ok more ->
    (S (size x) + items_fuel l <= fuel)%nat ->
    JSONArray_values fuel
      (chunk ++ more ++ newline_indent indent level ++ "]" :: rest)
    = Ok (x :: l, rest).
Proof.
  induction 1 as [|y l Hy Hl IH]; intros x chunk more rest fuel Hx Hc Hm Hf.
  - injection Hm as <-.
    destruct fuel as [|fuel]; [cbn in Hf; lia|].
    rewrite JSONArray_values_S.
    rewrite (Hx _ _ _ Hc) by (cbn in Hf; lia).
    cbn [rbind]. rewrite app_nil_l, skip_ws_newline_indent. reflexivity.
  - apply encode_items_cons_Ok in Hm as (cy & more' & Hcy & Hm' & ->).
    destruct fuel as [|fuel]; [cbn in Hf; lia|].
    rewrite items_fuel_cons in Hf.
    rewrite JSONArray_values_S.
    rewrite (Hx _ _ _ Hc) by lia.
    cbn [rbind]. rewrite <- !app_assoc, <- !app_comm_cons.
    rewrite skip_ws_nonws by reflexivity.
    change (Ascii.eqb "," "]") with false. change (Ascii.eqb "," ",") with true.
    cbv iota.
    rewrite (skip_ws_indent_value _ _ _ _ _ _ Hcy).
    rewrite (IH y cy more' rest fuel Hy Hcy Hm') by lia.
    reflexivity.
Qed.

Lemma JSONObject_pairs_encoded (indent level : nat) (items : list (string * pyobj)) :
  Forall (fun kv => reads_back (snd kv)) items ->
  forall k v chunk more rest fuel,
    reads_back v ->
    iterencode indent (S level) v = Ok chunk ->
    encode_items
      (fun kv =>
         chunk <- iterencode indent (S level) (snd kv) ;;
         Ok (encode_basestring_ascii (fst kv) ++ txt ": " ++ chunk))%result
      (newline_indent indent (S level)) false items = Ok more ->
    (S (size v) + pairs_fuel items <= fuel)%nat ->
    JSONObject_pairs fuel
      (escape (list_ascii_of_string k) ++ dquote :: txt ": " ++ chunk ++ more ++
       newline_indent indent level ++ "}" :: rest)
    = Ok ((k, v) :: items, rest).
Proof.
  induction 1 as [|[k' v'] items Hy Hl IH];
    intros k v chunk more rest fuel Hv Hc Hm Hf;
    (destruct fuel as [|fuel]; [cbn in Hf; lia|]);
    rewrite JSONObject_pairs_S, scanstring_escape; cbn [rbind];
    change (txt ": " ++ ?s) with (":" :: " " :: s);
    rewrite skip_ws_nonws by reflexivity;
    change (Ascii.eqb ":" ":") with true; cbv iota;
    change (skip_ws (" " :: ?s)) with (skip_ws s);
    destruct (iterencode_start _ _ _ _ Hc) as (c & tl & Ec & Hstart);
    rewrite (skip_ws_nonws_app chunk) by (subst chunk; now apply value_start_not_ws);
    rewrite string_of_list_ascii_of_string.
  - injection Hm as <-.
    rewrite (Hv _ _ _ Hc) by (cbn in Hf; lia).
    cbn [rbind]. rewrite app_nil_l, skip_ws_newline_indent. reflexivity.
  - apply encode_items_cons_Ok in Hm as (cy & more' & Hcy & Hm' & ->).
    apply rbind_Ok in Hcy as (cv & Hcv & Hcy). injection Hcy as <-.
    cbn [fst snd] in *. rewrite pairs_fuel_cons in Hf. cbn [snd] in Hf.
    rewrite (Hv _ _ _ Hc) by lia.
    cbn [rbind]. rewrite <- !app_assoc, <- !app_comm_cons.
    rewrite skip_ws_nonws by reflexivity.
    change (Ascii.eqb "," "}") with false. change (Ascii.eqb "," ",") with true.
    cbv iota.
    rewrite skip_ws_newline_indent.
    unfold encode_basestring_ascii.
    rewrite <- !app_assoc, <- !app_comm_cons, <- !app_assoc.
    rewrite skip_ws_nonws by reflexivity.
    change (Ascii.eqb dquote dquote) with true. cbv iota.
    match goal with
    | |- context [JSONObject_pairs fuel ?t] =>
        change t with
          (escape (list_ascii_of_string k') ++ dquote :: txt ": " ++ cv ++ more' ++
           newline_indent indent level ++ "}" :: rest)
    end.
    rewrite (IH k' v' cv more' rest fuel Hy Hcv Hm') by lia.
    reflexivity.
Qed.

Lemma scan_once_string (fuel : nat) (s1 : text) :
  scan_once (S fuel) (dquote :: s1) =
  (' (str, rest) <- scanstring s1 ;;
   Ok (PyStr (string_of_list_ascii str), rest))%result.
Proof. reflexivity. Qed.

Lemma scan_once_array (fuel : nat) (s1 : text) :
  scan_once (S fuel) ("[" :: s1) =
  match skip_ws s1 with
  | c2 :: s2 =>
      if Ascii.eqb c2 "]" then Ok (PyList [], s2)
      else
        (' (values, rest) <- JSONArray_values fuel (c2 :: s2) ;;
         Ok (PyList values, rest))%result
  | [] => Err JSONDecodeError
  end.
Proof. reflexivity. Qed.

Lemma scan_once_object (fuel : nat) (s1 : text) :
  scan_once (S fuel) ("{" :: s1) =
  match skip_ws s1 with
  | c2 :: s2 =>
      if Ascii.eqb c2 "}" then Ok (PyDict [], s2)
      else if Ascii.eqb c2 dquote then
        (' (pairs, rest) <- JSONObject_pairs fuel s2 ;;
         Ok (PyDict (dict_of_pairs pairs), rest))%result
      else Err JSONDecodeError
  | [] => Err JSONDecodeError
  end.
Proof. reflexivity. Qed.

(** ** [dict(pairs)] of pairs with distinct keys *)

Lemma nodupb_NoDup (l : list string) : nodupb l = true -> NoDup l.
Proof.
  induction l as [|k l IH]; cbn [nodupb]; intros H; constructor.
  - apply andb_prop in H as [H _]. apply negb_true_iff in H.
    intros Hin. assert (existsb (String.eqb k) l = true) as Hex.
    { apply existsb_exists. exists k. split; [exact Hin | apply String.eqb_refl]. }
    congruence.
  - apply andb_prop in H as [_ H]. now apply IH.
Qed.

Lemma dict_set_fresh (k : string) (v : pyobj) (items : list (string * pyobj)) :
  ~ In k (map fst items) -> dict_set k v items = items ++ [(k, v)].
Proof.
  induction items as [|[k' v'] items IH]; cbn [dict_set map fst In app]; intros H.
  - reflexivity.
  - destruct (String.eqb_spec k k') as [->|_]; [exfalso; apply H; now left|].
    f_equal. apply IH. intros Hin. apply H. now right.
Qed.

Lemma dict_of_pairs_acc (pairs acc : list (string * pyobj)) :
  NoDup (map fst (acc ++ pairs)) ->
  fold_left (fun d kv => dict_set (fst kv) (snd kv) d) pairs acc = acc ++ pairs.
Proof.
  revert acc. induction pairs as [|[k v] pairs IH]; intros acc H; cbn [fold_left fst snd].
  - now rewrite app_nil_r.
  - rewrite dict_set_fresh.
    + rewrite IH; rewrite <- app_assoc; [reflexivity | exact H].
    + rewrite map_app in H. cbn [map fst] in H.
      apply NoDup_remove_2 in H. intros Hin. apply H, in_or_app. now left.
Qed.

Lemma dict_of_pairs_nodup (pairs : list (string * pyobj)) :
  nodupb (map fst pairs) = true -> dict_of_pairs pairs = pairs.
Proof.
  intros H. unfold dict_of_pairs.
  now rewrite dict_of_pairs_acc by (apply nodupb_NoDup, H).
Qed.

(** ** The decoder reads every encoded value back *)

Lemma Forall_reads_back_list (l : list pyobj) :
  Forall (fun o => wf o = true -> reads_back o) l ->
  forallb wf l = true -> Forall reads_back l.
Proof.
  induction 1 as [|x l Hx _ IH]; cbn [forallb]; intros H; constructor;
    apply andb_prop in H as [H1 H2]; auto.
Qed.

Lemma Forall_reads_back_items (items : list (string * pyobj)) :
  Forall (fun kv => wf (snd kv) = true -> reads_back (snd kv)) items ->
  forallb (fun kv => wf (snd kv)) items = true ->
  Forall (fun kv => reads_back (snd kv)) items.
Proof.
  induction 1 as [|x l Hx _ IH]; cbn [forallb]; intros H; constructor;
    apply andb_prop in H as [H1 H2]; auto.
Qed.

Lemma iterencode_reads_back (o : pyobj) : wf o = true -> reads_back o.
Proof.
  Opaque newline_indent.
  induction o as [|b|s|l IH|items IH|d] using pyobj_ind; intros Hwf indent level chunk Hc fuel rest Hf;
    (destruct fuel as [|fuel]; [cbn in Hf; lia|]).
  - injection Hc as <-. reflexivity.
  - destruct b; injection Hc as <-; reflexivity.
  - injection Hc as <-.
    destruct (scanstring_encoded s rest) as (body & -> & Hs).
    rewrite scan_once_string, Hs. cbn [rbind].
    now rewrite string_of_list_ascii_of_string.
  - destruct l as [|x l]; [injection Hc as <-; reflexivity|].
    cbn [iterencode] in Hc. apply rbind_Ok in Hc as (body & Hb & Hc).
    injection Hc as <-.
    apply encode_items_cons_Ok in Hb as (cx & more & Hcx & Hm & ->).
    cbn [wf] in Hwf. apply (Forall_reads_back_list _ IH) in Hwf.
    inversion Hwf as [|? ? Hx Hl]; subst.
    rewrite <- app_comm_cons, scan_once_array, <- !app_assoc.
    rewrite (skip_ws_indent_value _ _ _ _ _ _ Hcx).
    destruct (iterencode_start _ _ _ _ Hcx) as (c & tl & Ec & Hstart).
    rewrite Ec, <- app_comm_cons, (value_start_not_close _ Hstart), app_comm_cons, <- Ec.
    change (["]"] ++ rest) with ("]" :: rest).
    cbn [size] in Hf. fold (items_fuel (x :: l)) in Hf. rewrite items_fuel_cons in Hf.
    rewrite (JSONArray_values_encoded _ _ _ Hl _ _ _ _ fuel Hx Hcx Hm) by lia.
    reflexivity.
  - destruct items as [|[k v] items]; [injection Hc as <-; reflexivity|].
    cbn [iterencode] in Hc. apply rbind_Ok in Hc as (body & Hb & Hc).
    injection Hc as <-.
    apply encode_items_cons_Ok in Hb as (cx & more & Hcx & Hm & ->).
    apply rbind_Ok in Hcx as (cv & Hcv & Hcx). injection Hcx as <-.
    cbn [fst snd] in Hcv, Hm |- *.
    cbn [wf] in Hwf. apply andb_prop in Hwf as [Hnd Hwf].
    apply (Forall_reads_back_items _ IH) in Hwf.
    inversion Hwf as [|? ? Hx Hl]; subst. cbn [snd] in Hx.
    rewrite <- app_comm_cons, scan_once_object. unfold encode_basestring_ascii.
    norm_text. rewrite skip_ws_newline_indent.
    rewrite skip_ws_nonws by reflexivity.
    change (Ascii.eqb dquote "}") with false.
    change (Ascii.eqb dquote dquote) with true. cbv iota.
    cbn [size] in Hf. fold (pairs_fuel ((k, v) :: items)) in Hf.
    rewrite pairs_fuel_cons in Hf. cbn [snd] in Hf.
    match goal with
    | |- context [JSONObject_pairs fuel ?t] =>
        change t with
          (escape (list_ascii_of_string k) ++ dquote :: txt ": " ++ cv ++ more ++
           newline_indent indent level ++ "}" :: rest)
    end.
    rewrite (JSONObject_pairs_encoded _ _ _ Hl _ _ _ _ _ fuel Hx Hcv Hm) by lia.
    cbn [rbind]. now rewrite dict_of_pairs_nodup.
  - discriminate.
  Transparent newline_indent.
Qed.

(** ** The fuel [json_loads] starts with is enough *)

Lemma encode_items_length {A} (enc : A -> result text) (m : A -> nat)
    (nl : text) (l : list A) :
  (1 <= List.length nl)%nat ->
  Forall (fun x => forall c, enc x = Ok c -> (m x <= List.length c)%nat) l ->
  forall first body,
    encode_items enc nl first l = Ok body ->
    (list_sum (map (fun x => S (m x)) l) <= List.length body)%nat.
Proof.
  intros Hnl. induction 1 as [|x l Hx _ IH]; intros first body Hb.
  - cbn. lia.
  - apply encode_items_cons_Ok in Hb as (c & more & Hc & Hm & ->).
    apply Hx in Hc. apply IH in Hm.
    cbn [map list_sum fold_right]. fold (list_sum (map (fun x => S (m x)) l)).
    rewrite !List.length_app.
    assert (1 <= List.length (if first then nl else "," :: nl))%nat
      by (destruct first; cbn [List.length]; lia).
    lia.
Qed.

Lemma newline_indent_length (indent level : nat) :
  (1 <= List.length (newline_indent indent level))%nat.
Proof. unfold newline_indent. cbn [List.length]. lia. Qed.

Lemma iterencode_length (o : pyobj) :
  forall indent level chunk,
    iterencode indent level o = Ok chunk -> (size o <= List.length chunk)%nat.
Proof.
  induction o as [|b|s|l IH|items IH|d] using pyobj_ind; intros indent level chunk Hc.
  - injection Hc as <-. cbn. lia.
  - destruct b; injection Hc as <-; cbn; lia.
  - injection Hc as <-. cbn. lia.
  - destruct l as [|x l]; [injection Hc as <-; cbn; lia|].
    cbn [iterencode] in Hc. apply rbind_Ok in Hc as (body & Hb & Hc).
    injection Hc as <-.
    apply (encode_items_length _ size) in Hb.
    + cbn [size List.length]. rewrite List.length_app. lia.
    + apply newline_indent_length.
    + eapply Forall_impl; [|exact IH]. intros y Hy c. apply Hy.
  - destruct items as [|kv items]; [injection Hc as <-; cbn; lia|].
    cbn [iterencode] in Hc. apply rbind_Ok in Hc as (body & Hb & Hc).
    injection Hc as <-.
    apply (encode_items_length _ (fun kv => size (snd kv))) in Hb.
    + cbn [size List.length]. rewrite List.length_app. lia.
    + apply newline_indent_length.
    + eapply Forall_impl; [|exact IH]. intros y Hy c Hyc.
      apply rbind_Ok in Hyc as (cv & Hcv & Hyc). injection Hyc as <-.
      apply Hy in Hcv.
      repeat first [rewrite List.length_app | progress cbn [List.length]]. lia.
  - discriminate.
Qed.

(** [json.loads] returns the value [json.dumps] was given: every
    serializable value whose dicts have distinct keys survives the trip
    through its indented text, key order included. *)
Theorem json_loads_dumps (indent : nat) (o : pyobj) (s : string) :
  wf o = true ->
  json_dumps indent o = Ok s ->
  json_loads s = Ok o.
Proof.
  intros Hwf Hd. unfold json_dumps in Hd.
  apply rbind_Ok in Hd as (chunk & Hc & Hd). injection Hd as <-.
  unfold json_loads. rewrite list_ascii_of_string_of_list_ascii.
  destruct (iterencode_start _ _ _ _ Hc) as (c & tl & Ec & Hstart).
  assert (skip_ws chunk = chunk) as ->.
  { rewrite Ec. apply skip_ws_nonws, value_start_not_ws, Hstart. }
  cbv zeta.
  pose proof (iterencode_reads_back o Hwf indent 0%nat chunk Hc
                (S (List.length chunk)) []) as Hr.
  rewrite app_nil_r in Hr. rewrite Hr.
  - reflexivity.
  - apply iterencode_length in Hc. lia.
Qed.

(** ** Timestamps: [isoformat] writes ISO 8601 *)

Lemma digit_value_digit_char (d : Z) :
  0 <= d <= 9 -> digit_value (digit_char d) = Some d.
Proof.
  intros H.
  assert (d = 0 \/ d = 1 \/ d = 2 \/ d = 3 \/ d = 4 \/
          d = 5 \/ d = 6 \/ d = 7 \/ d = 8 \/ d = 9) as Hd by lia.
  repeat (destruct Hd as [->|Hd]; [reflexivity|]). subst d. reflexivity.
Qed.

Lemma parse_digits_fixed (w : nat) :
  forall n k acc rest,
    0 <= n ->
    parse_digits (w + k) acc (fixed_digits w n ++ rest) =
    parse_digits k (acc * 10 ^ Z.of_nat w + n mod 10 ^ Z.of_nat w) rest.
Proof.
  induction w as [|w IH]; intros n k acc rest Hn.
  - cbn [fixed_digits app Nat.add]. change (10 ^ Z.of_nat 0) with 1.
    rewrite Z.mod_1_r. f_equal. lia.
  - cbn [fixed_digits]. rewrite <- app_assoc.
    replace (S w + k)%nat with (w + S k)%nat by lia.
    rewrite IH by (apply Z.div_pos; lia).
    cbn [app parse_digits].
    rewrite digit_value_digit_char by (pose proof (Z.mod_pos_bound n 10); lia).
    f_equal.
    rewrite Nat2Z.inj_succ, Z.pow_succ_r by lia.
    rewrite (Z.rem_mul_r n 10 (10 ^ Z.of_nat w)) by lia.
    lia.
Qed.

Lemma num_digits_aux_le (w : nat) :
  forall fuel n,
    (1 <= w)%nat -> 0 <= n < 10 ^ Z.of_nat w -> (num_digits_aux fuel n <= w)%nat.
Proof.
  induction w as [|w IH]; intros fuel n Hw Hn; [lia|].
  destruct fuel as [|fuel]; cbn [num_digits_aux]; [lia|].
  destruct (Z.ltb_spec n 10) as [Hlt|Hge]; [lia|].
  destruct w as [|w]; [change (10 ^ Z.of_nat 1) with 10 in Hn; lia|].
  apply le_n_S, IH; [lia|].
  rewrite Nat2Z.inj_succ, Z.pow_succ_r in Hn by lia.
  split; [apply Z.div_pos; lia|].
  apply Z.div_lt_upper_bound; lia.
Qed.

Lemma format_d_fixed (w : nat) (n : Z) :
  (1 <= w)%nat -> 0 <= n < 10 ^ Z.of_nat w -> format_d w n = fixed_digits w n.
Proof.
  intros Hw Hn. unfold format_d.
  destruct (Z.ltb_spec n 0) as [Hlt|_]; [lia|].
  rewrite Nat.max_l; [reflexivity|].
  unfold num_digits. now apply num_digits_aux_le.
Qed.

Lemma parse_digits_format_d (w : nat) (n : Z) (rest : text) :
  (1 <= w)%nat -> 0 <= n < 10 ^ Z.of_nat w ->
  parse_digits w 0 (format_d w n ++ rest) = Some (n, rest).
Proof.
  intros Hw Hn. rewrite format_d_fixed by assumption.
  pose proof (parse_digits_fixed w n 0 0 rest (proj1 Hn)) as H.
  rewrite Nat.add_0_r in H. rewrite H. cbn [parse_digits].
  rewrite Z.mod_small by assumption. reflexivity.
Qed.

Lemma days_in_month_le (y m : Z) : days_in_month y m <= 31.
Proof.
  unfold days_in_month.
  repeat match goal with |- context [if ?b then _ else _] => destruct b end; lia.
Qed.

Lemma expect_txt (c : ascii) (s : text) :
  expect c (txt (String c EmptyString) ++ s) = Some s.
Proof. cbn. now rewrite Ascii.eqb_refl. Qed.

Lemma expect_txt_cons (c : ascii) (s : text) :
  match txt (String c EmptyString) ++ s with
  | [] => Some (0, [])
  | _ :: _ => (s' <- expect c (txt (String c EmptyString) ++ s) ;; parse_digits 6 0 s')%option
  end = parse_digits 6 0 s.
Proof. cbn. now rewrite Ascii.eqb_refl. Qed.

(** Reading back the text [isoformat] wrote gives the datetime itself. *)
Lemma iso8601_datetime_isoformat (d : datetime) :
  valid_datetime d = true -> iso8601_datetime (isoformat d) = Some d.
Proof.
  intros Hvalid. pose proof Hvalid as H.
  destruct d as [y m dd hh mm ss us]. unfold valid_datetime in H.
  cbn [year month day hour minute second microsecond] in H.
  repeat (apply andb_prop in H as [H ?]).
  repeat match goal with
         | Hle : (_ <=? _) = true |- _ => apply Z.leb_le in Hle
         end.
  pose proof (days_in_month_le y m).
  unfold iso8601_datetime, isoformat, format_time.
  cbn [year month day hour minute second microsecond].
  rewrite list_ascii_of_string_of_list_ascii.
  repeat rewrite <- app_assoc.
  rewrite parse_digits_format_d by (try change (10 ^ Z.of_nat 4) with (10 ^ 4); lia).
  cbn [obind]. rewrite expect_txt. cbn [obind].
  do 4 (rewrite parse_digits_format_d
          by (try change (10 ^ Z.of_nat 2) with (10 ^ 2); lia);
        cbn [obind]; rewrite expect_txt; cbn [obind]).
  rewrite parse_digits_format_d by (try change (10 ^ Z.of_nat 2) with (10 ^ 2); lia).
  cbn [obind].
  destruct (Z.eqb_spec us 0) as [->|Hus].
  - cbn [obind]. now rewrite Hvalid.
  - rewrite expect_txt_cons. cbn [obind].
    rewrite <- (app_nil_r (format_d 6 us)).
    rewrite parse_digits_format_d by (try change (10 ^ Z.of_nat 6) with (10 ^ 6); lia).
    cbn [obind]. now rewrite Hvalid.
Qed.

(** ** The record and its text *)

Lemma status_literal_wf (t : datetime) : wf (status_literal t) = true.
Proof. reflexivity. Qed.

Lemma iterencode_status (t : datetime) :
  iterencode 2 0 (status_literal t) =
  Ok (output_before ++ encode_basestring_ascii (isoformat t) ++ output_after).
Proof.
  unfold status_literal. generalize (isoformat t). intros s.
  cbn. unfold encode_basestring_ascii, newline_indent. cbn.
  rewrite <- !app_assoc. reflexivity.
Qed.

Lemma json_dumps_status (t : datetime) :
  json_dumps 2 (status_literal t) = Ok (status_text t).
Proof. unfold json_dumps. now rewrite iterencode_status. Qed.

Lemma json_loads_status (t : datetime) :
  json_loads (status_text t) = Ok (status_literal t).
Proof.
  apply (json_loads_dumps 2); [apply status_literal_wf | apply json_dumps_status].
Qed.

(** ** Running the builder and the script *)

Lemma create_project_status_run (w : world) :
  create_project_status w =
  match clock w (clock_reads w) with
  | Some t => (Ok (status_literal t), tick w)
  | None => (Err OSError, tick w)
  end.
Proof.
  unfold create_project_status, bind, datetime_now, ret.
  now destruct (clock w (clock_reads w)).
Qed.

Lemma create_project_status_Ok (w w' : world) (status : pyobj) :
  create_project_status w = (Ok status, w') ->
  exists t,
    clock w (clock_reads w) = Some t /\ status = status_literal t /\ w' = tick w.
Proof.
  rewrite create_project_status_run.
  destruct (clock w (clock_reads w)) as [t|]; intros H; [|discriminate].
  injection H as <- <-. now exists t.
Qed.

Lemma main_run (w : world) :
  main w =
  match clock w (clock_reads w) with
  | Some t =>
      (Ok tt, write (list_ascii_of_string (status_text t) ++ [newline]) (tick w))
  | None => (Err OSError, tick w)
  end.
Proof.
  unfold main, bind. rewrite create_project_status_run.
  destruct (clock w (clock_reads w)) as [t|]; [|reflexivity].
  unfold lift. now rewrite json_dumps_status.
Qed.

(** ** Values nested in a value are smaller than it *)

Lemma In_items_fuel (x : pyobj) (l : list pyobj) :
  In x l -> (S (size x) <= items_fuel l)%nat.
Proof.
  induction l as [|y l IH]; intros H; [destruct H|].
  rewrite items_fuel_cons. destruct H as [->|H]; [lia|]. apply IH in H. lia.
Qed.

Lemma In_pairs_fuel (kv : string * pyobj) (items : list (string * pyobj)) :
  In kv items -> (S (size (snd kv)) <= pairs_fuel items)%nat.
Proof.
  induction items as [|y l IH]; intros H; [destruct H|].
  rewrite pairs_fuel_cons. destruct H as [->|H]; [lia|]. apply IH in H. lia.
Qed.

Lemma nested_size (o : pyobj) :
  forall x, In x (nested o) -> (size x < size o)%nat.
Proof.
  induction o as [|b|s|l IH|items IH|d] using pyobj_ind; intros x Hx;
    try (now destruct Hx).
  - cbn [nested] in Hx. apply in_flat_map in Hx as (y & Hy & Hx).
    pose proof (In_items_fuel _ _ Hy) as Hfuel.
    cbn [size]. fold (items_fuel l).
    destruct Hx as [<-|Hx]; [lia|].
    rewrite Forall_forall in IH. apply (IH y Hy) in Hx. lia.
  - cbn [nested] in Hx. apply in_flat_map in Hx as (kv & Hkv & Hx).
    pose proof (In_pairs_fuel _ _ Hkv) as Hfuel.
    cbn [size]. fold (pairs_fuel items).
    destruct Hx as [<-|Hx]; [lia|].
    rewrite Forall_forall in IH. apply (IH kv Hkv) in Hx. lia.
Qed.

Lemma nested_irreflexive (o : pyobj) : ~ In o (nested o).
Proof. intros H. apply nested_size in H. lia. Qed.

(** ** Serializable values always encode *)

Lemma encode_items_total {A} (enc : A -> result text) (nl : text) (l : list A) :
  Forall (fun x => exists c, enc x = Ok c) l ->
  forall first, exists body, encode_items enc nl first l = Ok body.
Proof.
  induction 1 as [|x l (c & Hc) _ IH]; intros first; cbn [encode_items].
  - now eexists.
  - destruct (IH false) as (more & Hm). rewrite Hc, Hm. cbn [rbind]. now eexists.
Qed.

Lemma iterencode_total (o : pyobj) :
  serializable o = true ->
  forall indent level, exists chunk, iterencode indent level o = Ok chunk.
Proof.
  induction o as [|b|s|l IH|items IH|d] using pyobj_ind;
    intros Hs indent level; cbn [iterencode].
  - now eexists.
  - destruct b; now eexists.
  - now eexists.
  - destruct l as [|x l]; [now eexists|].
    destruct (encode_items_total (iterencode indent (S level))
                (newline_indent indent (S level)) (x :: l)) with (first := true)
      as (body & Hb).
    + cbn [serializable] in Hs. rewrite forallb_forall in Hs.
      rewrite Forall_forall in IH |- *. intros y Hy. apply (IH y Hy), Hs, Hy.
    + rewrite Hb. cbn [rbind]. now eexists.
  - destruct items as [|kv items]; [now eexists|].
    destruct (encode_items_total
                (fun kv =>
                   chunk <- iterencode indent (S level) (snd kv) ;;
                   Ok (encode_basestring_ascii (fst kv) ++ txt ": " ++ chunk))%result
                (newline_indent indent (S level)) (kv :: items)) with (first := true)
      as (body & Hb).
    + cbn [serializable] in Hs. rewrite forallb_forall in Hs.
      rewrite Forall_forall in IH |- *. intros y Hy.
      destruct (IH y Hy (Hs y Hy) indent (S level)) as (c & Hc).
      rewrite Hc. cbn [rbind]. now eexists.
    + rewrite Hb. cbn [rbind]. now eexists.
  - discriminate.
Qed.

(** ** Lines of the output *)

Lemma escape_char_no_newline (c : ascii) :
  forallb not_newline (escape_char c) = true.
Proof. destruct c as [[] [] [] [] [] [] [] []]; reflexivity. Qed.

Lemma escape_no_newline (s : text) : forallb not_newline (escape s) = true.
Proof.
  induction s as [|c s IH]; [reflexivity|].
  unfold escape in *. cbn [flat_map]. rewrite forallb_app.
  now rewrite escape_char_no_newline, IH.
Qed.

Lemma lines_nonempty (s : text) : lines s <> [].
Proof.
  destruct s as [|c s]; cbn [lines]; [discriminate|].
  destruct (Ascii.eqb c newline); [discriminate|].
  destruct (lines s); discriminate.
Qed.

Lemma lines_app_newline (x b : text) :
  lines (x ++ newline :: b) = lines x ++ lines b.
Proof.
  induction x as [|c x IH]; [reflexivity|].
  cbn [app lines]. rewrite IH.
  destruct (Ascii.eqb c newline); [reflexivity|].
  pose proof (lines_nonempty x) as Hx.
  destruct (lines x) as [|l ls]; [contradiction|]. reflexivity.
Qed.

Lemma lines_no_newline (x : text) :
  forallb not_newline x = true -> lines x = [x].
Proof.
  induction x as [|c x IH]; [reflexivity|].
  cbn [forallb lines]. intros H. apply andb_prop in H as [Hc Hx].
  unfold not_newline in Hc. apply negb_true_iff in Hc. rewrite Hc.
  now rewrite IH.
Qed.

(** ** The lines of the script's output *)

Lemma encode_basestring_ascii_app (s : string) (rest : text) :
  encode_basestring_ascii s ++ rest =
  dquote :: escape (list_ascii_of_string s) ++ dquote :: rest.
Proof.
  unfold encode_basestring_ascii. rewrite <- app_comm_cons, <- app_assoc.
  reflexivity.
Qed.

Lemma last_updated_line_no_newline (s : string) :
  forallb not_newline (last_updated_key ++ encode_basestring_ascii s ++ [","]) = true.
Proof.
  unfold encode_basestring_ascii. rewrite !forallb_app. cbn [forallb].
  rewrite forallb_app, escape_no_newline. reflexivity.
Qed.

Lemma lines_status (s : string) :
  lines (output_before ++ encode_basestring_ascii s ++ output_after) =
  lines text_above ++
  [last_updated_key ++ encode_basestring_ascii s ++ [","]] ++
  lines text_below.
Proof.
  unfold output_before, output_after.
  replace ((text_above ++ newline :: last_updated_key) ++
           encode_basestring_ascii s ++ "," :: newline :: text_below)
    with (text_above ++ newline ::
          (last_updated_key ++ encode_basestring_ascii s ++ [","]) ++
          newline :: text_below).
  - rewrite !lines_app_newline.
    now rewrite (lines_no_newline _ (last_updated_line_no_newline s)).
  - rewrite <- !app_assoc. reflexivity.
Qed.

(** ** The layout of what the encoder wrote *)

Lemma expect_spaces_repeat (k : nat) (rest : text) :
  expect_spaces k (repeat space k ++ rest) = Some rest.
Proof. induction k as [|k IH]; [reflexivity|exact IH]. Qed.

Lemma expect_break_newline_indent (n level : nat) (rest : text) :
  expect_break n level (newline_indent n level ++ rest) = Some rest.
Proof. apply expect_spaces_repeat. Qed.

Lemma expect_not_newline_indent (c : ascii) (n level : nat) (rest : text) :
  Ascii.eqb c newline = false ->
  expect c (newline_indent n level ++ rest) = None.
Proof. intros H. unfold newline_indent. cbn [app expect]. now rewrite H. Qed.

Lemma layout_items_S (fuel n level : nat) (s : text) :
  layout_items (S fuel) n level s =
  (' (value, s1) <- layout_value fuel n (S level) s ;;
   match expect "," s1 with
   | Some s2 =>
       s3 <- expect_break n (S level) s2 ;;
       ' (values, rest) <- layout_items fuel n level s3 ;;
       Some (value :: values, rest)
   | None =>
       s2 <- expect_break n level s1 ;;
       rest <- expect "]" s2 ;;
       Some ([value], rest)
   end)%option.
Proof. reflexivity. Qed.

Lemma layout_pairs_S (fuel n level : nat) (s : text) :
  layout_pairs (S fuel) n level s =
  (s0 <- expect dquote s ;;
   ' (key, s1) <- to_option (scanstring s0) ;;
   s2 <- expect ":" s1 ;;
   s3 <- expect " " s2 ;;
   ' (value, s4) <- layout_value fuel n (S level) s3 ;;
   match expect "," s4 with
   | Some s5 =>
       s6 <- expect_break n (S level) s5 ;;
       ' (pairs, rest) <- layout_pairs fuel n level s6 ;;
       Some ((string_of_list_ascii key, value) :: pairs, rest)
   | None =>
       s5 <- expect_break n level s4 ;;
       rest <- expect "}" s5 ;;
       Some ([(string_of_list_ascii key, value)], rest)
   end)%option.
Proof. reflexivity. Qed.

Lemma layout_value_list (fuel n level : nat) (s1 : text) :
  layout_value (S fuel) n level ("[" :: s1) =
  match expect "]" s1 with
  | Some rest => Some (PyList [], rest)
  | None =>
      (s2 <- expect_break n (S level) s1 ;;
       ' (values, rest) <- layout_items fuel n level s2 ;;
       Some (PyList values, rest))%option
  end.
Proof. reflexivity. Qed.

Lemma layout_value_dict (fuel n level : nat) (s1 : text) :
  layout_value (S fuel) n level ("{" :: s1) =
  match expect "}" s1 with
  | Some rest => Some (PyDict [], rest)
  | None =>
      (s2 <- expect_break n (S level) s1 ;;
       ' (pairs, rest) <- layout_pairs fuel n level s2 ;;
       Some (PyDict pairs, rest))%option
  end.
Proof. reflexivity. Qed.

Lemma layout_value_string (fuel n level : nat) (s1 : text) :
  layout_value (S fuel) n level (dquote :: s1) =
  (' (str, rest) <- to_option (scanstring s1) ;;
   Some (PyStr (string_of_list_ascii str), rest))%option.
Proof. reflexivity. Qed.

(** An item text followed by the next item or by the closing line. *)
Lemma layout_entry_key (key : string) (tail : text) :
  (s0 <- expect dquote (encode_basestring_ascii key ++ txt ": " ++ tail) ;;
   ' (k, s1) <- to_option (scanstring s0) ;;
   s2 <- expect ":" s1 ;;
   s3 <- expect " " s2 ;;
   Some (string_of_list_ascii k, s3))%option = Some (key, tail).
Proof.
  rewrite encode_basestring_ascii_app.
  cbn [expect obind]. change (Ascii.eqb dquote dquote) with true. cbv iota.
  cbn [obind]. rewrite scanstring_escape. cbn [to_option obind].
  now rewrite string_of_list_ascii_of_string.
Qed.

Lemma layout_items_encoded (n level : nat) (l : list pyobj) :
  Forall lays_out l ->
  forall x chunk more rest fuel,
    lays_out x ->
    iterencode n (S level) x = Ok chunk ->
    encode_items (iterencode n (S level)) (newline_indent n (S level)) false l
      = Ok more ->
    (S (size x) + items_fuel l <= fuel)%nat ->
    layout_items fuel n level
      (chunk ++ more ++ newline_indent n level ++ "]" :: rest)
    = Some (x :: l, rest).
Proof.
  induction 1 as [|y l Hy Hl IH]; intros x chunk more rest fuel Hx Hc Hm Hf.
  - injection Hm as <-.
    destruct fuel as [|fuel]; [cbn in Hf; lia|].
    rewrite layout_items_S, (Hx _ _ _ Hc) by (cbn in Hf; lia).
    cbn [obind]. rewrite app_nil_l.
    rewrite (expect_not_newline_indent "," n level) by reflexivity.
    rewrite expect_break_newline_indent. reflexivity.
  - apply encode_items_cons_Ok in Hm as (cy & more' & Hcy & Hm' & ->).
    destruct fuel as [|fuel]; [cbn in Hf; lia|].
    rewrite items_fuel_cons in Hf.
    rewrite layout_items_S, (Hx _ _ _ Hc) by lia.
    cbn [obind]. rewrite <- !app_assoc, <- !app_comm_cons.
    change (expect "," ("," :: ?t)) with (Some t). cbv iota.
    rewrite expect_break_newline_indent. cbn [obind].
    rewrite (IH y cy more' rest fuel Hy Hcy Hm') by lia.
    reflexivity.
Qed.

Lemma layout_pairs_entry (fuel n level : nat) (k : string) (tail : text) :
  layout_pairs (S fuel) n level (encode_basestring_ascii k ++ txt ": " ++ tail) =
  (' (value, s4) <- layout_value fuel n (S level) tail ;;
   match expect "," s4 with
   | Some s5 =>
       s6 <- expect_break n (S level) s5 ;;
       ' (pairs, rest) <- layout_pairs fuel n level s6 ;;
       Some ((k, value) :: pairs, rest)
   | None =>
       s5 <- expect_break n level s4 ;;
       rest <- expect "}" s5 ;;
       Some ([(k, value)], rest)
   end)%option.
Proof.
  rewrite layout_pairs_S.
  pose proof (layout_entry_key k tail) as Hkey.
  destruct (expect dquote _) as [s0|]; cbn [obind] in Hkey |- *; try discriminate.
  destruct (to_option (scanstring s0)) as [[key s1]|]; cbn [obind] in Hkey |- *;
    try discriminate.
  destruct (expect ":" s1) as [s2|]; cbn [obind] in Hkey |- *; try discriminate.
  destruct (expect " " s2) as [s3|]; cbn [obind] in Hkey |- *; try discriminate.
  injection Hkey as -> ->. reflexivity.
Qed.

Lemma layout_pairs_encoded (n level : nat) (items : list (string * pyobj)) :
  Forall (fun kv => lays_out (snd kv)) items ->
  forall k v chunk more rest fuel,
    lays_out v ->
    iterencode n (S level) v = Ok chunk ->
    encode_items
      (fun kv =>
         chunk <- iterencode n (S level) (snd kv) ;;
         Ok (encode_basestring_ascii (fst kv) ++ txt ": " ++ chunk))%result
      (newline_indent n (S level)) false items = Ok more ->
    (S (size v) + pairs_fuel items <= fuel)%nat ->
    layout_pairs fuel n level
      (encode_basestring_ascii k ++ txt ": " ++ chunk ++ more ++
       newline_indent n level ++ "}" :: rest)
    = Some ((k, v) :: items, rest).
Proof.
  induction 1 as [|[k' v'] items Hy Hl IH];
    intros k v chunk more rest fuel Hv Hc Hm Hf;
    (destruct fuel as [|fuel]; [cbn in Hf; lia|]);
    rewrite layout_pairs_entry.
  - assert (more = []) as -> by (cbn [encode_items] in Hm; congruence).
    rewrite (Hv _ _ _ Hc) by (cbn in Hf; lia).
    cbn [obind]. rewrite app_nil_l.
    rewrite (expect_not_newline_indent "," n level) by reflexivity.
    rewrite expect_break_newline_indent. reflexivity.
  - apply encode_items_cons_Ok in Hm as (cy & more' & Hcy & Hm' & ->).
    apply rbind_Ok in Hcy as (cv & Hcv & Hcy). cbn [fst] in Hcy.
    assert (cy = encode_basestring_ascii k' ++ txt ": " ++ cv) as -> by congruence.
    cbn [snd] in Hcv. rewrite pairs_fuel_cons in Hf. cbn [snd] in Hf.
    rewrite (Hv _ _ _ Hc) by lia.
    cbn [obind].
    replace ((("," :: newline_indent n (S level)) ++
              (encode_basestring_ascii k' ++ txt ": " ++ cv) ++ more') ++
             newline_indent n level ++ "}" :: rest)
      with ("," :: newline_indent n (S level) ++
            encode_basestring_ascii k' ++ txt ": " ++ cv ++ more' ++
            newline_indent n level ++ "}" :: rest)
      by (rewrite <- !app_assoc; reflexivity).
    change (expect "," ("," :: ?t)) with (Some t). cbv iota.
    rewrite expect_break_newline_indent. cbn [obind].
    rewrite (IH k' v' cv more' rest fuel Hy Hcv Hm') by lia.
    reflexivity.
Qed.

Lemma iterencode_lays_out (o : pyobj) : lays_out o.
Proof.
  induction o as [|b|s|l IH|items IH|d] using pyobj_ind;
    intros n level chunk Hc fuel rest Hf;
    (destruct fuel as [|fuel]; [cbn in Hf; lia|]).
  - injection Hc as <-. reflexivity.
  - destruct b; injection Hc as <-; reflexivity.
  - injection Hc as <-.
    destruct (scanstring_encoded s rest) as (body & -> & Hs).
    rewrite layout_value_string, Hs. cbn [to_option obind].
    now rewrite string_of_list_ascii_of_string.
  - destruct l as [|x l]; [injection Hc as <-; reflexivity|].
    cbn [iterencode] in Hc. apply rbind_Ok in Hc as (body & Hb & Hc).
    assert (chunk = "[" :: body ++ newline_indent n level ++ ["]"]) as ->
      by congruence.
    apply encode_items_cons_Ok in Hb as (cx & more & Hcx & Hm & ->).
    inversion IH as [|? ? Hx Hl]; subst.
    replace (("[" :: (newline_indent n (S level) ++ cx ++ more) ++
              newline_indent n level ++ ["]"]) ++ rest)
      with ("[" :: newline_indent n (S level) ++
            cx ++ more ++ newline_indent n level ++ "]" :: rest)
      by (rewrite <- app_comm_cons, <- !app_assoc; reflexivity).
    rewrite layout_value_list.
    rewrite (expect_not_newline_indent "]" n (S level)) by reflexivity.
    rewrite expect_break_newline_indent. cbn [obind].
    cbn [size] in Hf. fold (items_fuel (x :: l)) in Hf. rewrite items_fuel_cons in Hf.
    rewrite (layout_items_encoded n level l Hl x cx more rest fuel Hx Hcx Hm) by lia.
    reflexivity.
  - destruct items as [|[k v] items]; [injection Hc as <-; reflexivity|].
    cbn [iterencode] in Hc. apply rbind_Ok in Hc as (body & Hb & Hc).
    assert (chunk = "{" :: body ++ newline_indent n level ++ ["}"]) as ->
      by congruence.
    apply encode_items_cons_Ok in Hb as (cx & more & Hcx & Hm & ->).
    apply rbind_Ok in Hcx as (cv & Hcv & Hcx). cbn [fst] in Hcx.
    assert (cx = encode_basestring_ascii k ++ txt ": " ++ cv) as -> by congruence.
    cbn [snd] in Hcv.
    inversion IH as [|? ? Hx Hl]; subst. cbn [snd] in Hx.
    replace (("{" :: (newline_indent n (S level) ++
                      (encode_basestring_ascii k ++ txt ": " ++ cv) ++ more) ++
              newline_indent n level ++ ["}"]) ++ rest)
      with ("{" :: newline_indent n (S level) ++
            encode_basestring_ascii k ++ txt ": " ++ cv ++ more ++
            newline_indent n level ++ "}" :: rest)
      by (rewrite <- app_comm_cons, <- !app_assoc; reflexivity).
    rewrite layout_value_dict.
    rewrite (expect_not_newline_indent "}" n (S level)) by reflexivity.
    rewrite expect_break_newline_indent. cbn [obind].
    cbn [size] in Hf. fold (pairs_fuel ((k, v) :: items)) in Hf.
    rewrite pairs_fuel_cons in Hf. cbn [snd] in Hf.
    rewrite (layout_pairs_encoded n level items Hl k v cv more rest fuel Hx Hcv Hm)
      by lia.
    reflexivity.
  - discriminate.
Qed.

(** The text [json.dumps] returns with an indent lays out the value it was
    given, with that indent. *)
Lemma layout_json_dumps (indent : nat) (o : pyobj) (s : string) :
  json_dumps indent o = Ok s -> layout indent s = Some o.
Proof.
  unfold json_dumps. intros H. apply rbind_Ok in H as (chunk & Hc & H).
  injection H as <-. unfold layout.
  rewrite list_ascii_of_string_of_list_ascii. cbv zeta.
  pose proof (iterencode_lays_out o indent 0%nat chunk Hc
                (S (List.length chunk)) []) as Hlay.
  rewrite app_nil_r in Hlay. rewrite Hlay; [reflexivity|].
  apply iterencode_length in Hc. lia.
Qed.

(** ** The output is plain ASCII *)

Lemma escape_char_safe (c : ascii) : forallb ascii_safe (escape_char c) = true.
Proof. destruct c as [[] [] [] [] [] [] [] []]; reflexivity. Qed.

Lemma escape_safe (s : text) : forallb ascii_safe (escape s) = true.
Proof.
  induction s as [|c s IH]; [reflexivity|].
  unfold escape in *. cbn [flat_map]. rewrite forallb_app.
  now rewrite escape_char_safe, IH.
Qed.

Lemma encode_basestring_ascii_safe (s : string) :
  forallb ascii_safe (encode_basestring_ascii s) = true.
Proof.
  unfold encode_basestring_ascii. cbn [forallb]. rewrite forallb_app, escape_safe.
  reflexivity.
Qed.

Lemma newline_indent_safe (indent level : nat) :
  forallb ascii_safe (newline_indent indent level) = true.
Proof.
  unfold newline_indent. cbn [forallb].
  induction (indent * level)%nat as [|n IH]; [reflexivity|exact IH].
Qed.

Lemma encode_items_safe {A} (enc : A -> result text) (nl : text) (l : list A) :
  forallb ascii_safe nl = true ->
  Forall (fun x => forall c, enc x = Ok c -> forallb ascii_safe c = true) l ->
  forall first body,
    encode_items enc nl first l = Ok body -> forallb ascii_safe body = true.
Proof.
  intros Hnl. induction 1 as [|x l Hx _ IH]; intros first body Hb.
  - now injection Hb as <-.
  - apply encode_items_cons_Ok in Hb as (c & more & Hc & Hm & ->).
    rewrite !forallb_app, (Hx _ Hc), (IH _ _ Hm).
    destruct first; cbn [forallb]; now rewrite Hnl.
Qed.

Lemma bracketed_safe (opening closing : ascii) (body : text) (indent level : nat) :
  ascii_safe opening = true -> ascii_safe closing = true ->
  forallb ascii_safe body = true ->
  forallb ascii_safe
    (opening :: body ++ newline_indent indent level ++ [closing]) = true.
Proof.
  intros Ho Hc Hb. cbn [forallb].
  rewrite !forallb_app, Ho, Hb, newline_indent_safe. cbn [forallb].
  now rewrite Hc.
Qed.

Lemma iterencode_safe (o : pyobj) :
  forall indent level chunk,
    iterencode indent level o = Ok chunk -> forallb ascii_safe chunk = true.
Proof.
  induction o as [|b|s|l IH|items IH|d] using pyobj_ind; intros indent level chunk Hc.
  - now injection Hc as <-.
  - destruct b; now injection Hc as <-.
  - injection Hc as <-. apply encode_basestring_ascii_safe.
  - destruct l as [|x l]; [now injection Hc as <-|].
    cbn [iterencode] in Hc. apply rbind_Ok in Hc as (body & Hb & Hc).
    injection Hc as <-.
    apply encode_items_safe in Hb.
    + now apply bracketed_safe.
    + apply newline_indent_safe.
    + eapply Forall_impl; [|exact IH]. intros y Hy c. apply Hy.
  - destruct items as [|kv items]; [now injection Hc as <-|].
    cbn [iterencode] in Hc. apply rbind_Ok in Hc as (body & Hb & Hc).
    injection Hc as <-.
    apply encode_items_safe in Hb.
    + now apply bracketed_safe.
    + apply newline_indent_safe.
    + eapply Forall_impl; [|exact IH]. intros y Hy c Hyc.
      apply rbind_Ok in Hyc as (cv & Hcv & Hyc).
      apply (f_equal (fun r => match r with Ok c' => forallb ascii_safe c' | Err _ => true end)) in Hyc.
      rewrite <- Hyc.
      rewrite !forallb_app, encode_basestring_ascii_safe, (Hy _ _ _ Hcv).
      reflexivity.
  - discriminate.
Qed.

Lemma json_dumps_ascii_text (indent : nat) (o : pyobj) (s : string) :
  json_dumps indent o = Ok s ->
  forallb ascii_safe (list_ascii_of_string s) = true.
Proof.
  unfold json_dumps. intros H. apply rbind_Ok in H as (chunk & Hc & H).
  injection H as <-. rewrite list_ascii_of_string_of_list_ascii.
  exact (iterencode_safe _ _ _ _ Hc).
Qed.

(** ** Encoding the printed text *)

Lemma ascii_safe_below_128 (ch : ascii) :
  ascii_safe ch = true -> (N_of_ascii ch <? 128)%N = true.
Proof. destruct ch as [[] [] [] [] [] [] [] []]; cbn; congruence. Qed.

Lemma encode_ascii_safe (c : codec) (s : text) :
  forallb ascii_safe s = true ->
  c <> UTF16 ->
  encode c s = Some s.
Proof.
  intros Hs Hc. induction s as [|ch s IH]; [reflexivity|].
  cbn [forallb] in Hs. apply andb_prop in Hs as [Hch Hs].
  cbn [encode]. rewrite (IH Hs). unfold encode_char.
  rewrite (ascii_safe_below_128 ch Hch).
  destruct c; try reflexivity. contradiction.
Qed.

Lemma encode_utf16 (s : text) :
  encode UTF16 s = Some (flat_map (fun ch => [ch; zero]) s).
Proof.
  induction s as [|ch s IH]; [reflexivity|].
  cbn [encode encode_char obind flat_map]. now rewrite IH.
Qed.

Lemma printed_ascii_safe (t : datetime) :
  forallb ascii_safe (list_ascii_of_string (status_text t) ++ [newline]) = true.
Proof.
  rewrite forallb_app.
  rewrite (json_dumps_ascii_text 2 (status_literal t)) by apply json_dumps_status.
  reflexivity.
Qed.

(** The text the script prints can be encoded in every encoding of the
    model. *)
Lemma encode_printed (c : codec) (t : datetime) :
  exists bs, encode c (list_ascii_of_string (status_text t) ++ [newline]) = Some bs.
Proof.
  destruct c; try (eexists; apply encode_ascii_safe;
                   [apply printed_ascii_safe | discriminate]).
  eexists. apply encode_utf16.
Qed.

(** An e with an acute accent, U+00E9, in the encodings of the model. *)
Example encode_e_acute :
  encode UTF8 ["233"%char] = Some ["195"; "169"]%char /\
  encode Latin1 ["233"%char] = Some ["233"%char] /\
  encode ASCII ["233"%char] = None /\
  encode UTF16 ["233"%char] = Some ["233"; "000"]%char.
Proof. repeat split. Qed.

(** With standard output closed the script writes nothing and ends with
    status 0; on a full device an unbuffered stream fails in [print], which
    ends the script with status 1. *)
Example run_closed :
  run (mkhost Closed UTF8 8192) sample_world = Some (mkoutcome 0 []).
Proof. vm_compute. reflexivity. Qed.

Example run_full_unbuffered :
  run full_host
      (mkworld (clock sample_world) 0 [] [("PYTHONUNBUFFERED", "1")]%string [])
  = Some (mkoutcome 1 []).
Proof. vm_compute. reflexivity. Qed.

Lemma stdout_launch (s : text) (w : world) :
  stdout (write s (tick (launch w))) = s.
Proof. reflexivity. Qed.

Lemma main_launch (w : world) (t : datetime) :
  clock w (clock_reads w) = Some t ->
  main (launch w) =
  (Ok tt, write (list_ascii_of_string (status_text t) ++ [newline]) (tick (launch w))).
Proof. intros Ht. rewrite main_run. cbn [launch clock clock_reads]. now rewrite Ht. Qed.

(** * Properties of the script *)

(** C1: the record the builder returns has exactly the keys [project_name],
    [project_path], [current_phase], [phase_status], [last_updated],
    [completed_infrastructure], [development_requirements], [next_actions],
    in that order; the text the script writes is the [json.dumps] text of
    that record, and read back it is a dict with the same keys in the same
    order. *)
Theorem top_level_keys_in_order (w w' : world) (status : pyobj) :
  create_project_status w = (Ok status, w') ->
  keys status = top_level_keys /\
  exists out d,
    json_dumps 2 status = Ok out /\
    stdout (snd (main w)) = stdout w ++ list_ascii_of_string out ++ [newline] /\
    json_loads out = Ok d /\
    keys d = top_level_keys.
Proof.
  intros H. pose proof H as H'.
  apply create_project_status_Ok in H' as (t & Ht & -> & ->).
  split; [reflexivity|].
  exists (status_text t), (status_literal t).
  rewrite main_run, Ht.
  repeat split.
  - apply json_dumps_status.
  - apply json_loads_status.
Qed.

Lemma top_level_keys_in_order_witness :
  create_project_status sample_world =
    (Ok (status_literal sample_time), tick sample_world) /\
  (keys (status_literal sample_time) = top_level_keys /\
   exists out d,
     json_dumps 2 (status_literal sample_time) = Ok out /\
     stdout (snd (main sample_world)) =
       stdout sample_world ++ list_ascii_of_string out ++ [newline] /\
     json_loads out = Ok d /\
     keys d = top_level_keys).
Proof.
  split; [reflexivity|].
  apply (top_level_keys_in_order sample_world (tick sample_world)).
  reflexivity.
Defined.

(** C2: in the record the builder returns, [project_name] is
    ["Caesar Token DEX/Wallet/App Development"], [phase_status] is
    ["INITIALIZING"], and [development_requirements] has exactly the keys
    [agora_dex], [satchel_wallet], [tablets_ui]. *)
Theorem fixed_fields (w w' : world) (status : pyobj) :
  create_project_status w = (Ok status, w') ->
  getitem status "project_name" =
    Some (PyStr "Caesar Token DEX/Wallet/App Development") /\
  getitem status "phase_status" = Some (PyStr "INITIALIZING") /\
  exists reqs,
    getitem status "development_requirements" = Some reqs /\
    keys reqs = ["agora_dex"; "satchel_wallet"; "tablets_ui"]%string.
Proof.
  intros H. apply create_project_status_Ok in H as (t & _ & -> & _).
  split; [reflexivity|]. split; [reflexivity|].
  eexists. split; reflexivity.
Qed.

Lemma fixed_fields_witness :
  create_project_status sample_world =
    (Ok (status_literal sample_time), tick sample_world) /\
  (getitem (status_literal sample_time) "project_name" =
     Some (PyStr "Caesar Token DEX/Wallet/App Development") /\
   getitem (status_literal sample_time) "phase_status" =
     Some (PyStr "INITIALIZING") /\
   exists reqs,
     getitem (status_literal sample_time) "development_requirements" = Some reqs /\
     keys reqs = ["agora_dex"; "satchel_wallet"; "tablets_ui"]%string).
Proof.
  split; [reflexivity|].
  apply (fixed_fields sample_world (tick sample_world)). reflexivity.
Defined.

(** C3: the records two runs of the builder return have the same keys and
    the same value under every key but [last_updated], and their
    [json.dumps] texts are the same text before and after the value of
    [last_updated]. *)
Theorem differ_only_in_last_updated
    (w1 w1' w2 w2' : world) (status1 status2 : pyobj) :
  create_project_status w1 = (Ok status1, w1') ->
  create_project_status w2 = (Ok status2, w2') ->
  keys status1 = keys status2 /\
  (forall k, k <> "last_updated"%string -> getitem status1 k = getitem status2 k) /\
  exists before after updated1 updated2,
    getitem status1 "last_updated" = Some (PyStr updated1) /\
    getitem status2 "last_updated" = Some (PyStr updated2) /\
    json_dumps 2 status1 =
      Ok (string_of_list_ascii (before ++ encode_basestring_ascii updated1 ++ after)) /\
    json_dumps 2 status2 =
      Ok (string_of_list_ascii (before ++ encode_basestring_ascii updated2 ++ after)).
Proof.
  intros H1 H2.
  apply create_project_status_Ok in H1 as (t1 & _ & -> & _).
  apply create_project_status_Ok in H2 as (t2 & _ & -> & _).
  split; [reflexivity|]. split.
  - intros k Hk. unfold status_literal, getitem. cbn [dict_get].
    destruct (String.eqb_spec k "last_updated") as [->|_]; [contradiction|].
    reflexivity.
  - exists output_before, output_after, (isoformat t1), (isoformat t2).
    repeat split; apply json_dumps_status.
Qed.

Lemma differ_only_in_last_updated_witness :
  create_project_status sample_world =
    (Ok (status_literal sample_time), tick sample_world) /\
  create_project_status later_world =
    (Ok (status_literal later_time), tick later_world) /\
  (keys (status_literal sample_time) = keys (status_literal later_time) /\
   (forall k, k <> "last_updated"%string ->
      getitem (status_literal sample_time) k = getitem (status_literal later_time) k) /\
   exists before after updated1 updated2,
     getitem (status_literal sample_time) "last_updated" = Some (PyStr updated1) /\
     getitem (status_literal later_time) "last_updated" = Some (PyStr updated2) /\
     json_dumps 2 (status_literal sample_time) =
       Ok (string_of_list_ascii (before ++ encode_basestring_ascii updated1 ++ after)) /\
     json_dumps 2 (status_literal later_time) =
       Ok (string_of_list_ascii (before ++ encode_basestring_ascii updated2 ++ after))).
Proof.
  split; [reflexivity|]. split; [reflexivity|].
  apply (differ_only_in_last_updated
           sample_world (tick sample_world) later_world (tick later_world));
    reflexivity.
Defined.

(** C4: a run of the builder reads the clock once, and so does the whole
    script; [last_updated] is the ISO 8601 text of that reading, and read
    back as a timestamp it is that reading. *)
Theorem last_updated_single_clock_read (w w' : world) (status : pyobj) (t : datetime) :
  clock w (clock_reads w) = Some t ->
  valid_datetime t = true ->
  create_project_status w = (Ok status, w') ->
  clock_reads w' = S (clock_reads w) /\
  clock_reads (snd (main w)) = S (clock_reads w) /\
  getitem status "last_updated" = Some (PyStr (isoformat t)) /\
  iso8601_datetime (isoformat t) = Some t.
Proof.
  intros Ht Hvalid H.
  apply create_project_status_Ok in H as (t' & Ht' & -> & ->).
  assert (t' = t) as -> by congruence.
  rewrite main_run, Ht.
  repeat split. now apply iso8601_datetime_isoformat.
Qed.

Lemma last_updated_single_clock_read_witness :
  clock sample_world (clock_reads sample_world) = Some sample_time /\
  valid_datetime sample_time = true /\
  create_project_status sample_world =
    (Ok (status_literal sample_time), tick sample_world) /\
  (clock_reads (tick sample_world) = S (clock_reads sample_world) /\
   clock_reads (snd (main sample_world)) = S (clock_reads sample_world) /\
   getitem (status_literal sample_time) "last_updated" =
     Some (PyStr (isoformat sample_time)) /\
   iso8601_datetime (isoformat sample_time) = Some sample_time).
Proof.
  split; [reflexivity|]. split; [reflexivity|]. split; [reflexivity|].
  apply (last_updated_single_clock_read sample_world (tick sample_world));
    reflexivity.
Defined.

(** C5: in the record the builder returns, [development_requirements] has
    the entries [agora_dex], [satchel_wallet] and [tablets_ui], and each of
    them has a [needs] field that is a list, not empty, of strings only. *)
Theorem needs_nonempty_strings (w w' : world) (status : pyobj) :
  create_project_status w = (Ok status, w') ->
  exists reqs,
    getitem status "development_requirements" = Some reqs /\
    keys reqs = ["agora_dex"; "satchel_wallet"; "tablets_ui"]%string /\
    forall name,
      In name (keys reqs) ->
      exists entry needs,
        getitem reqs name = Some entry /\
        getitem entry "needs" = Some (PyList needs) /\
        needs <> [] /\
        forallb is_str needs = true.
Proof.
  intros H. apply create_project_status_Ok in H as (t & _ & -> & _).
  eexists. split; [reflexivity|]. split; [reflexivity|].
  intros name Hname. cbn [keys dict_keys map fst In] in Hname.
  destruct Hname as [<-|[<-|[<-|[]]]];
    eexists _, _; (split; [reflexivity|]); (split; [reflexivity|]);
    (split; [discriminate|reflexivity]).
Qed.

Lemma needs_nonempty_strings_witness :
  create_project_status sample_world =
    (Ok (status_literal sample_time), tick sample_world) /\
  (exists reqs,
     getitem (status_literal sample_time) "development_requirements" = Some reqs /\
     keys reqs = ["agora_dex"; "satchel_wallet"; "tablets_ui"]%string /\
     forall name,
       In name (keys reqs) ->
       exists entry needs,
         getitem reqs name = Some entry /\
         getitem entry "needs" = Some (PyList needs) /\
         needs <> [] /\
         forallb is_str needs = true) /\
  (exists reqs entry needs,
     getitem (status_literal sample_time) "development_requirements" = Some reqs /\
     getitem reqs "tablets_ui" = Some entry /\
     getitem entry "needs" = Some (PyList needs) /\
     needs <> [] /\
     forallb is_str needs = true).
Proof.
  split; [reflexivity|].
  pose proof (needs_nonempty_strings sample_world (tick sample_world)
                (status_literal sample_time) eq_refl) as H.
  split; [exact H|].
  destruct H as (reqs & Hreqs & Hkeys & Hall).
  destruct (Hall "tablets_ui"%string) as (entry & needs & He & Hn & Hne & Hstr).
  - rewrite Hkeys. cbn [In]. tauto.
  - now exists reqs, entry, needs.
Defined.



(** C7: the text the script writes for the record parses back to a
    document, and [json.dumps] of that document with the same indent is the
    same text, character for character. *)
Theorem output_round_trip (w w' : world) (status : pyobj) :
  create_project_status w = (Ok status, w') ->
  exists out d,
    json_dumps 2 status = Ok out /\
    stdout (snd (main w)) = stdout w ++ list_ascii_of_string out ++ [newline] /\
    json_loads out = Ok d /\
    json_dumps 2 d = Ok out.
Proof.
  intros H. pose proof H as H'.
  apply create_project_status_Ok in H' as (t & Ht & -> & ->).
  exists (status_text t), (status_literal t).
  rewrite main_run, Ht.
  repeat split.
  - apply json_dumps_status.
  - apply json_loads_status.
  - apply json_dumps_status.
Qed.

Lemma output_round_trip_witness :
  create_project_status sample_world =
    (Ok (status_literal sample_time), tick sample_world) /\
  exists out d,
    json_dumps 2 (status_literal sample_time) = Ok out /\
    stdout (snd (main sample_world)) =
      stdout sample_world ++ list_ascii_of_string out ++ [newline] /\
    json_loads out = Ok d /\
    json_dumps 2 d = Ok out.
Proof.
  split; [reflexivity|].
  apply (output_round_trip sample_world (tick sample_world)). reflexivity.
Defined.

(** C8: every value nested in the record the builder returns, at any depth,
    is a string, a list of strings or a dict; and no value of the record is
    nested inside itself. *)
Theorem nested_values_shape (w w' : world) (status : pyobj) :
  create_project_status w = (Ok status, w') ->
  is_dict status = true /\
  (forall v, In v (nested status) ->
     is_str v = true \/ is_str_list v = true \/ is_dict v = true) /\
  (forall v, In v (status :: nested status) -> ~ In v (nested v)).
Proof.
  intros H. apply create_project_status_Ok in H as (t & _ & -> & _).
  split; [reflexivity|]. split.
  - assert (forallb (fun v => is_str v || is_str_list v || is_dict v)
              (nested (status_literal t)) = true) as Hall by reflexivity.
    rewrite forallb_forall in Hall. intros v Hv. apply Hall in Hv.
    rewrite !orb_true_iff in Hv. tauto.
  - intros v _. apply nested_irreflexive.
Qed.

Lemma nested_values_shape_witness :
  create_project_status sample_world =
    (Ok (status_literal sample_time), tick sample_world) /\
  (is_dict (status_literal sample_time) = true /\
   (forall v, In v (nested (status_literal sample_time)) ->
      is_str v = true \/ is_str_list v = true \/ is_dict v = true) /\
   (forall v, In v (status_literal sample_time :: nested (status_literal sample_time)) ->
      ~ In v (nested v))).
Proof.
  split; [reflexivity|].
  apply (nested_values_shape sample_world (tick sample_world)). reflexivity.
Defined.







(** * Further properties of the script and of the calls it makes *)

(** ** A clock that cannot be read *)

(** X1: when the clock read raises, the builder returns no record and the
    script stops there: the exception reaches the top, nothing is written to
    standard output and the exit status is 1. *)
Theorem clock_failure_writes_nothing (w : world) :
  clock w (clock_reads w) = None ->
  create_project_status w = (Err OSError, tick w) /\
  main w = (Err OSError, tick w) /\
  stdout (snd (main w)) = stdout w /\
  exit_status (fst (main w)) = 1%Z.
Proof.
  intros H. rewrite create_project_status_run, main_run, H. repeat split.
Qed.

Lemma clock_failure_writes_nothing_witness :
  clock broken_world (clock_reads broken_world) = None /\
  (create_project_status broken_world = (Err OSError, tick broken_world) /\
   main broken_world = (Err OSError, tick broken_world) /\
   stdout (snd (main broken_world)) = stdout broken_world /\
   exit_status (fst (main broken_world)) = 1%Z).
Proof.
  split; [reflexivity|].
  apply (clock_failure_writes_nothing broken_world). reflexivity.
Defined.

(** ** The length of the timestamp *)

Lemma fixed_digits_length (w : nat) (n : Z) : List.length (fixed_digits w n) = w.
Proof.
  revert n. induction w as [|w IH]; intros n; [reflexivity|].
  cbn [fixed_digits]. rewrite List.length_app, IH. cbn [List.length]. lia.
Qed.

Lemma format_d_length (w : nat) (n : Z) :
  (1 <= w)%nat -> 0 <= n < 10 ^ Z.of_nat w -> List.length (format_d w n) = w.
Proof.
  intros Hw Hn. rewrite format_d_fixed by assumption. apply fixed_digits_length.
Qed.

Lemma length_string_of_list_ascii (l : text) :
  String.length (string_of_list_ascii l) = List.length l.
Proof. induction l as [|c l IH]; [reflexivity|]. cbn. now rewrite IH. Qed.

Lemma valid_datetime_bounds (d : datetime) :
  valid_datetime d = true ->
  1 <= year d <= 9999 /\ 1 <= month d <= 12 /\ 1 <= day d <= 31 /\
  0 <= hour d <= 23 /\ 0 <= minute d <= 59 /\ 0 <= second d <= 59 /\
  0 <= microsecond d <= 999999.
Proof.
  intros H. unfold valid_datetime in H.
  repeat (apply andb_prop in H as [H ?]).
  repeat match goal with
         | Hle : (_ <=? _) = true |- _ => apply Z.leb_le in Hle
         end.
  pose proof (days_in_month_le (year d) (month d)). lia.
Qed.

Lemma isoformat_length (t : datetime) :
  valid_datetime t = true ->
  String.length (isoformat t) = if (microsecond t =? 0)%Z then 19%nat else 26%nat.
Proof.
  intros H. apply valid_datetime_bounds in H.
  unfold isoformat, format_time. rewrite length_string_of_list_ascii.
  repeat rewrite List.length_app.
  rewrite (format_d_length 4) by (try change (10 ^ Z.of_nat 4) with (10 ^ 4); lia).
  rewrite !(format_d_length 2) by (try change (10 ^ Z.of_nat 2) with (10 ^ 2); lia).
  destruct (Z.eqb_spec (microsecond t) 0) as [_|Hus]; [reflexivity|].
  rewrite List.length_app.
  rewrite (format_d_length 6) by (try change (10 ^ Z.of_nat 6) with (10 ^ 6); lia).
  reflexivity.
Qed.

(** X2: [last_updated] is 19 characters long when the clock reading falls
    on a whole second, since [isoformat] then leaves the fraction out, and
    26 characters long otherwise. *)
Theorem last_updated_length (w w' : world) (status : pyobj) (t : datetime) :
  clock w (clock_reads w) = Some t ->
  valid_datetime t = true ->
  create_project_status w = (Ok status, w') ->
  exists updated,
    getitem status "last_updated" = Some (PyStr updated) /\
    String.length updated = if (microsecond t =? 0)%Z then 19%nat else 26%nat.
Proof.
  intros Ht Hvalid H.
  apply create_project_status_Ok in H as (t' & Ht' & -> & _).
  assert (t' = t) as -> by congruence.
  exists (isoformat t). split; [reflexivity|]. now apply isoformat_length.
Qed.

Lemma last_updated_length_witness :
  clock later_world (clock_reads later_world) = Some later_time /\
  valid_datetime later_time = true /\
  create_project_status later_world =
    (Ok (status_literal later_time), tick later_world) /\
  exists updated,
    getitem (status_literal later_time) "last_updated" = Some (PyStr updated) /\
    String.length updated = if (microsecond later_time =? 0)%Z then 19%nat else 26%nat.
Proof.
  split; [reflexivity|]. split; [reflexivity|]. split; [reflexivity|].
  apply (last_updated_length later_world (tick later_world)); reflexivity.
Defined.

(** ** The output is plain ASCII *)



(** X4: on a standard output encoded in UTF-8, ASCII or Latin-1, every byte
    a run of the script writes is a newline or a printable ASCII character,
    whether the clock can be read or not and whatever the device behind
    standard output is. *)
Theorem written_bytes_ascii (h : host) (w : world) (c : codec) (o : outcome) :
  stdout_codec h (environ w) = Some c ->
  c <> UTF16 ->
  run h w = Some o ->
  forallb ascii_safe (written o) = true.
Proof.
  intros Hc Hne. unfold run. rewrite Hc.
  destruct (clock w (clock_reads w)) as [t|] eqn:Ht.
  - rewrite (main_launch w t Ht), stdout_launch.
    rewrite (encode_ascii_safe c _ (printed_ascii_safe t) Hne).
    destruct (stdout_device h); intros Ho.
    + injection Ho as <-. reflexivity.
    + injection Ho as <-. apply printed_ascii_safe.
    + apply (f_equal (option_map written)) in Ho. cbn [option_map written] in Ho.
      injection Ho as <-. reflexivity.
  - rewrite main_run. cbn [launch clock clock_reads]. rewrite Ht.
    intros Ho. injection Ho as <-. reflexivity.
Qed.

Lemma written_bytes_ascii_witness :
  stdout_codec plain_host (environ noisy_world) = Some UTF8 /\
  UTF8 <> UTF16 /\
  run plain_host noisy_world =
    Some (mkoutcome 0 (list_ascii_of_string (status_text sample_time) ++ [newline])) /\
  forallb ascii_safe
    (written (mkoutcome 0 (list_ascii_of_string (status_text sample_time) ++ [newline])))
  = true.
Proof.
  split; [reflexivity|]. split; [discriminate|].
  assert (run plain_host noisy_world =
          Some (mkoutcome 0 (list_ascii_of_string (status_text sample_time) ++ [newline])))
    as Hrun by (vm_compute; reflexivity).
  split; [exact Hrun|].
  apply (written_bytes_ascii plain_host noisy_world UTF8);
    [reflexivity | discriminate | exact Hrun].
Defined.

(** ** What [json.dumps] rejects *)

Lemma encode_items_TypeError {A} (enc : A -> result text) (ok : A -> bool)
    (nl : text) (l : list A) :
  (forall x, ok x = true -> exists c, enc x = Ok c) ->
  Forall (fun x => ok x = false -> enc x = Err TypeError) l ->
  forallb ok l = false ->
  forall first, encode_items enc nl first l = Err TypeError.
Proof.
  intros Hok. induction 1 as [|x l Hx _ IH]; intros Hl first; [discriminate|].
  cbn [forallb] in Hl. cbn [encode_items].
  destruct (ok x) eqn:Ex.
  - destruct (Hok x Ex) as (c & ->). cbn [rbind].
    now rewrite (IH Hl false).
  - now rewrite (Hx eq_refl).
Qed.

Lemma iterencode_TypeError (o : pyobj) :
  serializable o = false ->
  forall indent level, iterencode indent level o = Err TypeError.
Proof.
  induction o as [|b|s|l IH|items IH|d] using pyobj_ind;
    intros Hs indent level; try discriminate Hs.
  - destruct l as [|x l]; [discriminate Hs|].
    cbn [serializable] in Hs. cbn [iterencode].
    rewrite (encode_items_TypeError _ serializable); [reflexivity| | |exact Hs].
    + intros y Hy. now apply iterencode_total.
    + eapply Forall_impl; [|exact IH]. intros y Hy Hys. now apply Hy.
  - destruct items as [|kv items]; [discriminate Hs|].
    cbn [serializable] in Hs. cbn [iterencode].
    rewrite (encode_items_TypeError _ (fun kv => serializable (snd kv)));
      [reflexivity| | |exact Hs].
    + intros y Hy. destruct (iterencode_total _ Hy indent (S level)) as (c & ->).
      cbn [rbind]. now eexists.
    + eapply Forall_impl; [|exact IH]. intros y Hy Hys.
      now rewrite (Hy Hys).
  - reflexivity.
Qed.

(** X5: [json.dumps] returns no text for a value in which a [datetime]
    object is nested, at whatever depth: it is the [isoformat()] call that
    makes the record of the script printable. *)
Theorem json_dumps_rejects_datetime (indent : nat) (o : pyobj) :
  serializable o = false ->
  forall s, json_dumps indent o <> Ok s.
Proof.
  intros H s. unfold json_dumps. now rewrite iterencode_TypeError.
Qed.

Lemma json_dumps_rejects_datetime_witness :
  serializable (PyDict [("last_updated"%string, PyDatetime sample_time)]) = false /\
  forall s,
    json_dumps 2 (PyDict [("last_updated"%string, PyDatetime sample_time)]) <> Ok s.
Proof.
  split; [reflexivity|].
  apply (json_dumps_rejects_datetime 2
           (PyDict [("last_updated"%string, PyDatetime sample_time)])).
  reflexivity.
Defined.



(** ** The output tells the clock reading *)

Lemma status_text_injective (t1 t2 : datetime) :
  valid_datetime t1 = true -> valid_datetime t2 = true ->
  status_text t1 = status_text t2 -> t1 = t2.
Proof.
  intros H1 H2 H. apply (f_equal json_loads) in H.
  rewrite !json_loads_status in H.
  assert (isoformat t1 = isoformat t2) as Hiso.
  { apply (f_equal (fun r => match r with
                             | Ok o => getitem o "last_updated"
                             | Err _ => None
                             end)) in H.
    cbn [status_literal getitem dict_get String.eqb Ascii.eqb Bool.eqb] in H.
    now injection H. }
  clear H. rename Hiso into H. apply (f_equal iso8601_datetime) in H.
  rewrite !iso8601_datetime_isoformat in H by assumption. now injection H.
Qed.

(** X7: the text a run writes determines the clock reading it was built
    from: two runs that write the same text read the same date and time,
    to the microsecond. *)
Theorem output_determines_reading (w1 w2 : world) (t1 t2 : datetime) (out : text) :
  clock w1 (clock_reads w1) = Some t1 -> valid_datetime t1 = true ->
  clock w2 (clock_reads w2) = Some t2 -> valid_datetime t2 = true ->
  stdout (snd (main w1)) = stdout w1 ++ out ->
  stdout (snd (main w2)) = stdout w2 ++ out ->
  t1 = t2.
Proof.
  intros Ht1 Hv1 Ht2 Hv2 H1 H2.
  rewrite main_run, Ht1 in H1. rewrite main_run, Ht2 in H2.
  cbn [snd write tick stdout] in H1, H2.
  apply app_inv_head in H1, H2. rewrite <- H2 in H1.
  apply app_inv_tail in H1.
  apply (f_equal string_of_list_ascii) in H1.
  rewrite !string_of_list_ascii_of_string in H1.
  now apply status_text_injective.
Qed.

Lemma output_determines_reading_witness :
  clock sample_world (clock_reads sample_world) = Some sample_time /\
  valid_datetime sample_time = true /\
  clock noisy_world (clock_reads noisy_world) = Some sample_time /\
  valid_datetime sample_time = true /\
  stdout (snd (main sample_world)) =
    stdout sample_world ++ list_ascii_of_string (status_text sample_time) ++ [newline] /\
  stdout (snd (main noisy_world)) =
    stdout noisy_world ++ list_ascii_of_string (status_text sample_time) ++ [newline] /\
  sample_time = sample_time.
Proof.
  repeat (split; [reflexivity|]).
  apply (output_determines_reading sample_world noisy_world sample_time sample_time
           (list_ascii_of_string (status_text sample_time) ++ [newline]));
    reflexivity.
Defined.

(** ** Comparing two outputs line by line *)

Lemma lines_text_above_length :
  @List.length (list ascii) (lines text_above) = 5%nat.
Proof. vm_compute. reflexivity. Qed.

Lemma lines_text_below_length :
  @List.length (list ascii) (lines text_below) = 57%nat.
Proof. vm_compute. reflexivity. Qed.

Lemma lines_status_nth (s1 s2 : string) (i : nat) :
  i <> 5%nat ->
  nth i (lines (output_before ++ encode_basestring_ascii s1 ++ output_after)) [] =
  nth i (lines (output_before ++ encode_basestring_ascii s2 ++ output_after)) [].
Proof.
  intros Hi. rewrite !lines_status.
  pose proof lines_text_above_length as Habove.
  remember (lines text_above) as above eqn:Eabove. clear Eabove.
  remember (lines text_below) as below eqn:Ebelow. clear Ebelow.
  unfold text in *.
  destruct (Nat.lt_ge_cases i 5) as [Hlt|Hge].
  - rewrite !(app_nth1 above) by lia. reflexivity.
  - rewrite !(app_nth2 above) by lia. rewrite Habove.
    rewrite !(app_nth2 [_]) by (cbn [List.length]; lia). reflexivity.
Qed.

Lemma lines_status_length (s : string) :
  List.length (lines (output_before ++ encode_basestring_ascii s ++ output_after))
  = 63%nat.
Proof.
  rewrite lines_status, !List.length_app. unfold text.
  rewrite lines_text_above_length, lines_text_below_length. reflexivity.
Qed.

(** X8: the texts [json.dumps] returns for the records of two runs have 63
    lines each and are the same line for line, except for the sixth line,
    the one of [last_updated]. *)
Theorem outputs_differ_in_sixth_line_only
    (w1 w1' w2 w2' : world) (status1 status2 : pyobj) (out1 out2 : string) :
  create_project_status w1 = (Ok status1, w1') ->
  create_project_status w2 = (Ok status2, w2') ->
  json_dumps 2 status1 = Ok out1 ->
  json_dumps 2 status2 = Ok out2 ->
  List.length (lines (list_ascii_of_string out1)) = 63%nat /\
  List.length (lines (list_ascii_of_string out2)) = 63%nat /\
  forall i, i <> 5%nat ->
    nth i (lines (list_ascii_of_string out1)) [] =
    nth i (lines (list_ascii_of_string out2)) [].
Proof.
  intros H1 H2 Hd1 Hd2.
  apply create_project_status_Ok in H1 as (t1 & _ & -> & _).
  apply create_project_status_Ok in H2 as (t2 & _ & -> & _).
  rewrite json_dumps_status in Hd1, Hd2.
  injection Hd1 as <-. injection Hd2 as <-.
  unfold status_text. rewrite !list_ascii_of_string_of_list_ascii.
  split; [apply lines_status_length|]. split; [apply lines_status_length|].
  intros i Hi. now apply lines_status_nth.
Qed.

Lemma outputs_differ_in_sixth_line_only_witness :
  create_project_status sample_world =
    (Ok (status_literal sample_time), tick sample_world) /\
  create_project_status later_world =
    (Ok (status_literal later_time), tick later_world) /\
  json_dumps 2 (status_literal sample_time) = Ok (status_text sample_time) /\
  json_dumps 2 (status_literal later_time) = Ok (status_text later_time) /\
  (List.length (lines (list_ascii_of_string (status_text sample_time))) = 63%nat /\
   List.length (lines (list_ascii_of_string (status_text later_time))) = 63%nat /\
   forall i, i <> 5%nat ->
     nth i (lines (list_ascii_of_string (status_text sample_time))) [] =
     nth i (lines (list_ascii_of_string (status_text later_time))) []).
Proof.
  split; [reflexivity|]. split; [reflexivity|].
  split; [apply json_dumps_status|]. split; [apply json_dumps_status|].
  apply (outputs_differ_in_sixth_line_only
           sample_world (tick sample_world) later_world (tick later_world)
           (status_literal sample_time) (status_literal later_time));
    try reflexivity; apply json_dumps_status.
Defined.

(** ** The shape of the compound fields *)

(** X9: every entry of [development_requirements] in the record the builder
    returns has exactly the keys [status], [location], [needs], in that
    order, and its [status] and [location] are strings. *)
Theorem requirement_entries_schema (w w' : world) (status : pyobj) :
  create_project_status w = (Ok status, w') ->
  exists reqs,
    getitem status "development_requirements" = Some reqs /\
    forall name entry,
      getitem reqs name = Some entry ->
      keys entry = ["status"; "location"; "needs"]%string /\
      exists st loc,
        getitem entry "status" = Some (PyStr st) /\
        getitem entry "location" = Some (PyStr loc).
Proof.
  intros H. apply create_project_status_Ok in H as (t & _ & -> & _).
  eexists. split; [reflexivity|].
  intros name entry. cbn [getitem dict_get].
  destruct (String.eqb name "agora_dex");
    [|destruct (String.eqb name "satchel_wallet");
      [|destruct (String.eqb name "tablets_ui")]];
    intros Hentry; try discriminate Hentry;
    injection Hentry as <-; (split; [reflexivity|]);
    eexists _, _; split; reflexivity.
Qed.

Lemma requirement_entries_schema_witness :
  create_project_status sample_world =
    (Ok (status_literal sample_time), tick sample_world) /\
  exists reqs,
    getitem (status_literal sample_time) "development_requirements" = Some reqs /\
    forall name entry,
      getitem reqs name = Some entry ->
      keys entry = ["status"; "location"; "needs"]%string /\
      exists st loc,
        getitem entry "status" = Some (PyStr st) /\
        getitem entry "location" = Some (PyStr loc).
Proof.
  split; [reflexivity|].
  apply (requirement_entries_schema sample_world (tick sample_world)). reflexivity.
Defined.

(** ** Timestamps sort in the order of time *)

Lemma compare_string_of_list_ascii (a b : text) :
  String.compare (string_of_list_ascii a) (string_of_list_ascii b) = compare_text a b.
Proof.
  revert b. induction a as [|x a IH]; intros [|y b]; try reflexivity.
  cbn [string_of_list_ascii String.compare compare_text]. rewrite IH.
  now destruct (Ascii.compare x y).
Qed.

Lemma compare_text_app_same (p a b : text) :
  compare_text (p ++ a) (p ++ b) = compare_text a b.
Proof.
  induction p as [|x p IH]; [reflexivity|].
  cbn [app compare_text]. unfold Ascii.compare. now rewrite N.compare_refl.
Qed.

Lemma compare_digit_char (x y : Z) :
  0 <= x <= 9 -> 0 <= y <= 9 ->
  Ascii.compare (digit_char x) (digit_char y) = (x ?= y)%Z.
Proof.
  intros Hx Hy. unfold Ascii.compare, digit_char.
  rewrite !N_ascii_embedding by lia.
  rewrite Z2N.inj_compare by lia. apply Z.add_compare_mono_l.
Qed.

Lemma lex_div_mod (a b : Z) (c : comparison) :
  0 <= a -> 0 <= b ->
  lex (a / 10 ?= b / 10)%Z (lex (a mod 10 ?= b mod 10)%Z c) = lex (a ?= b)%Z c.
Proof.
  intros Ha Hb.
  pose proof (Z.div_mod a 10). pose proof (Z.div_mod b 10).
  pose proof (Z.mod_pos_bound a 10). pose proof (Z.mod_pos_bound b 10).
  destruct (Z.compare_spec (a / 10) (b / 10));
    destruct (Z.compare_spec (a mod 10) (b mod 10));
    destruct (Z.compare_spec a b); cbn [lex]; try reflexivity; lia.
Qed.

Lemma compare_text_fixed_digits (w : nat) :
  forall a b r1 r2,
    0 <= a < 10 ^ Z.of_nat w -> 0 <= b < 10 ^ Z.of_nat w ->
    compare_text (fixed_digits w a ++ r1) (fixed_digits w b ++ r2) =
    lex (a ?= b)%Z (compare_text r1 r2).
Proof.
  induction w as [|w IH]; intros a b r1 r2 Ha Hb.
  - change (10 ^ Z.of_nat 0) with 1 in Ha, Hb.
    assert (a = 0) as -> by lia. assert (b = 0) as -> by lia. reflexivity.
  - rewrite Nat2Z.inj_succ, Z.pow_succ_r in Ha, Hb by lia.
    cbn [fixed_digits]. rewrite <- !app_assoc.
    rewrite IH.
    + cbn [app compare_text].
      rewrite compare_digit_char
        by (pose proof (Z.mod_pos_bound a 10); pose proof (Z.mod_pos_bound b 10); lia).
      apply lex_div_mod; lia.
    + split; [apply Z.div_pos; lia | apply Z.div_lt_upper_bound; lia].
    + split; [apply Z.div_pos; lia | apply Z.div_lt_upper_bound; lia].
Qed.

Lemma compare_text_format_d (w : nat) (a b : Z) (r1 r2 : text) :
  (1 <= w)%nat ->
  0 <= a < 10 ^ Z.of_nat w -> 0 <= b < 10 ^ Z.of_nat w ->
  compare_text (format_d w a ++ r1) (format_d w b ++ r2) =
  lex (a ?= b)%Z (compare_text r1 r2).
Proof.
  intros Hw Ha Hb. rewrite !format_d_fixed by assumption.
  now apply compare_text_fixed_digits.
Qed.

Lemma compare_text_fraction (us1 us2 : Z) :
  0 <= us1 <= 999999 -> 0 <= us2 <= 999999 ->
  compare_text (if (us1 =? 0)%Z then [] else txt "." ++ format_d 6 us1)
               (if (us2 =? 0)%Z then [] else txt "." ++ format_d 6 us2)
  = (us1 ?= us2)%Z.
Proof.
  intros H1 H2.
  destruct (Z.eqb_spec us1 0) as [->|N1]; destruct (Z.eqb_spec us2 0) as [->|N2].
  - reflexivity.
  - cbn [txt list_ascii_of_string app compare_text]. symmetry. apply Z.compare_lt_iff. lia.
  - cbn [txt list_ascii_of_string app compare_text]. symmetry. apply Z.compare_gt_iff. lia.
  - rewrite compare_text_app_same.
    rewrite <- (app_nil_r (format_d 6 us1)), <- (app_nil_r (format_d 6 us2)).
    rewrite compare_text_format_d
      by (try change (10 ^ Z.of_nat 6) with (10 ^ 6); lia).
    cbn [compare_text]. now destruct (us1 ?= us2)%Z.
Qed.

Lemma compare_isoformat (t1 t2 : datetime) :
  valid_datetime t1 = true -> valid_datetime t2 = true ->
  String.compare (isoformat t1) (isoformat t2) = datetime_compare t1 t2.
Proof.
  intros H1 H2.
  apply valid_datetime_bounds in H1, H2.
  unfold isoformat, format_time, datetime_compare.
  rewrite compare_string_of_list_ascii.
  rewrite compare_text_format_d
    by (try change (10 ^ Z.of_nat 4) with (10 ^ 4); lia).
  do 5 (rewrite compare_text_app_same;
        rewrite compare_text_format_d
          by (try change (10 ^ Z.of_nat 2) with (10 ^ 2); lia)).
  rewrite compare_text_fraction by lia.
  reflexivity.
Qed.

(** X10: the [last_updated] values of two runs compare, as Python strings,
    the way the two clock readings compare as dates and times: sorting
    records by [last_updated] sorts them by time. *)
Theorem last_updated_sorts_by_time
    (w1 w1' w2 w2' : world) (status1 status2 : pyobj) (t1 t2 : datetime) :
  clock w1 (clock_reads w1) = Some t1 -> valid_datetime t1 = true ->
  clock w2 (clock_reads w2) = Some t2 -> valid_datetime t2 = true ->
  create_project_status w1 = (Ok status1, w1') ->
  create_project_status w2 = (Ok status2, w2') ->
  exists updated1 updated2,
    getitem status1 "last_updated" = Some (PyStr updated1) /\
    getitem status2 "last_updated" = Some (PyStr updated2) /\
    String.compare updated1 updated2 = datetime_compare t1 t2.
Proof.
  intros Ht1 Hv1 Ht2 Hv2 H1 H2.
  apply create_project_status_Ok in H1 as (t1' & Ht1' & -> & _).
  apply create_project_status_Ok in H2 as (t2' & Ht2' & -> & _).
  assert (t1' = t1) as -> by congruence.
  assert (t2' = t2) as -> by congruence.
  exists (isoformat t1), (isoformat t2).
  split; [reflexivity|]. split; [reflexivity|]. now apply compare_isoformat.
Qed.

Lemma last_updated_sorts_by_time_witness :
  clock sample_world (clock_reads sample_world) = Some sample_time /\
  valid_datetime sample_time = true /\
  clock later_world (clock_reads later_world) = Some later_time /\
  valid_datetime later_time = true /\
  create_project_status sample_world =
    (Ok (status_literal sample_time), tick sample_world) /\
  create_project_status later_world =
    (Ok (status_literal later_time), tick later_world) /\
  exists updated1 updated2,
    getitem (status_literal sample_time) "last_updated" = Some (PyStr updated1) /\
    getitem (status_literal later_time) "last_updated" = Some (PyStr updated2) /\
    String.compare updated1 updated2 = datetime_compare sample_time later_time.
Proof.
  repeat (split; [reflexivity|]).
  apply (last_updated_sorts_by_time
           sample_world (tick sample_world) later_world (tick later_world));
    reflexivity.
Defined.


(** ** [json.dumps] pretty-prints with the indent it is given *)


